(** * llm-backend: natural-language question to SQL, and its explanation

    A shallow embedding of [src/llm_sql.py] (keyword extraction, WHERE
    condition builder, column-expression cleaner, SQL generator, SQL
    explanation) and of the [/nl-query] route of [src/app.py], followed by
    the properties of the specification that concern them.

    Data model.  A Python [str] is modelled by [string]; a character of type
    [ascii] stands for the code point of the same number, so the embedding
    covers the strings whose code points are below 256 (ASCII and the
    Latin-1 supplement).  On that range [str.lower], [str.strip] and the two
    regular expressions of the source are modelled exactly.  The text-to-text
    model (tokenizer, FLAN-T5 generation, decoding) is an external
    collaborator: it is a parameter [suggest] of the generator, a function
    from the prompt to either the decoded text or a raised exception.  The
    iteration order of a Python [set] is not specified by the language: it
    is the parameter [SetOrder]. *)

From Stdlib Require Import List Bool Arith NArith Lia String Ascii Permutation.
Import ListNotations.
Open Scope string_scope.

(* ================================================================== *)
(** ** Python string primitives used by the source *)
(* ================================================================== *)

Module Py.

Definition code (c : ascii) : N := N_of_ascii c.

Definition in_range (lo hi : N) (c : ascii) : bool :=
  ((lo <=? code c) && (code c <=? hi))%N.

(** [A-Z], [a-z], [0-9]. *)
Definition is_ascii_upper (c : ascii) : bool := in_range 65 90 c.
Definition is_ascii_lower (c : ascii) : bool := in_range 97 122 c.
Definition is_ascii_letter (c : ascii) : bool :=
  is_ascii_upper c || is_ascii_lower c.
Definition is_digit (c : ascii) : bool := in_range 48 57 c.

(** Characters with a lower-case mapping, below code point 256: [A-Z] and
    the Latin-1 capitals U+00C0..U+00DE except the multiplication sign
    U+00D7.  Each maps to the code point 32 above it. *)
Definition is_upper (c : ascii) : bool :=
  is_ascii_upper c || (in_range 192 222 c && negb (code c =? 215)%N).

Definition lower_char (c : ascii) : ascii :=
  if is_upper c then ascii_of_N (code c + 32) else c.

(** Characters below 256 whose upper-case mapping stays below 256: [a-z]
    and U+00E0..U+00FE except the division sign U+00F7.  (U+00B5, U+00DF
    and U+00FF have upper-case forms outside the modelled range; the only
    use of [capitalize] in the source is on a text that begins with the
    letter T.) *)
Definition upper_char (c : ascii) : ascii :=
  if is_ascii_lower c || (in_range 224 254 c && negb (code c =? 247)%N)
  then ascii_of_N (code c - 32) else c.

(** [str.isspace] on one character, below 256: TAB, LF, VT, FF, CR,
    FS, GS, RS, US, SPACE, NEL (U+0085) and NBSP (U+00A0). *)
Definition is_space (c : ascii) : bool :=
  in_range 9 13 c || in_range 28 32 c || (code c =? 133)%N || (code c =? 160)%N.

(** [s.lower()] *)
Fixpoint lower (s : string) : string :=
  match s with
  | EmptyString => EmptyString
  | String c s' => String (lower_char c) (lower s')
  end.

(** [s.capitalize()]: first character upper-cased, the rest lower-cased. *)
Definition capitalize (s : string) : string :=
  match s with
  | EmptyString => EmptyString
  | String c s' => String (upper_char c) (lower s')
  end.

(** [s.lstrip()], [s.rstrip()], [s.strip()] *)
Fixpoint lstrip (s : string) : string :=
  match s with
  | EmptyString => EmptyString
  | String c s' => if is_space c then lstrip s' else s
  end.

Fixpoint rstrip (s : string) : string :=
  match s with
  | EmptyString => EmptyString
  | String c s' =>
      match rstrip s' with
      | EmptyString => if is_space c then EmptyString else String c EmptyString
      | r => String c r
      end
  end.

Definition strip (s : string) : string := rstrip (lstrip s).

(** [s.startswith(p)] *)
Fixpoint startswith (p s : string) : bool :=
  match p, s with
  | EmptyString, _ => true
  | String _ _, EmptyString => false
  | String a p', String b s' => (a =? b)%char && startswith p' s'
  end.

(** [s.endswith(p)] *)
Fixpoint endswith (p s : string) : bool :=
  (s =? p) ||
  match s with
  | EmptyString => false
  | String _ s' => endswith p s'
  end.

(** [sub in s] *)
Fixpoint contains (sub s : string) : bool :=
  startswith sub s ||
  match s with
  | EmptyString => false
  | String _ s' => contains sub s'
  end.

(** [s.split(",")] *)
Fixpoint split_comma (s : string) : list string :=
  match s with
  | EmptyString => [EmptyString]
  | String c s' =>
      if (c =? ",")%char then EmptyString :: split_comma s'
      else match split_comma s' with
           | p :: ps => String c p :: ps
           | [] => [String c EmptyString]
           end
  end.

(** [sep.join(parts)] *)
Definition join (sep : string) (parts : list string) : string :=
  String.concat sep parts.

(** [re.findall(r"[a-zA-Z]{3,}", s)]: the maximal runs of ASCII letters of
    length at least 3, from left to right.  [run] is the run of letters
    read so far. *)
Definition flush (run : string) : list string :=
  if (3 <=? String.length run)%nat then [run] else [].

Fixpoint findall_from (run s : string) : list string :=
  match s with
  | EmptyString => flush run
  | String c s' =>
      if is_ascii_letter c then findall_from (run ++ String c EmptyString) s'
      else (flush run ++ findall_from EmptyString s')%list
  end.

Definition findall_letters3 (s : string) : list string :=
  findall_from EmptyString s.

(** [re.match(r"^[a-zA-Z0-9_() ]+$", p)] as a truth value.  [$] matches at
    the end of the string and also just before a newline that ends it. *)
Definition is_column_char (c : ascii) : bool :=
  is_ascii_letter c || is_digit c ||
  (c =? "_")%char || (c =? "(")%char || (c =? ")")%char || (c =? " ")%char.

Definition newline : ascii := ascii_of_N 10.

Fixpoint column_tail (s : string) : bool :=
  match s with
  | EmptyString => true
  | String c s' =>
      (is_column_char c && column_tail s') ||
      ((c =? newline)%char && (s' =? EmptyString))
  end.

Definition match_column_chars (p : string) : bool :=
  match p with
  | EmptyString => false
  | String c s' => is_column_char c && column_tail s'
  end.

(** [x in set_of_strings] *)
Definition mem (x : string) (xs : list string) : bool :=
  existsb (String.eqb x) xs.

(** The elements of a list without repetition, first occurrences kept. *)
Fixpoint dedupe (ws : list string) : list string :=
  match ws with
  | [] => []
  | w :: ws' => w :: filter (fun x => negb (x =? w)) (dedupe ws')
  end.

(** [list(set(ws))]: the distinct elements of [ws] in an order that the
    language leaves to the implementation. *)
Record SetOrder : Type := {
  list_of_set : list string -> list string;
  list_of_set_perm : forall ws, Permutation (list_of_set ws) (dedupe ws)
}.

(** One admissible order: the order of first insertion. *)
Definition insertion_order : SetOrder :=
  {| list_of_set := dedupe;
     list_of_set_perm := fun ws => Permutation_refl (dedupe ws) |}.

(** Another one: the reverse of it. *)
Definition reverse_order : SetOrder :=
  {| list_of_set := fun ws => rev (dedupe ws);
     list_of_set_perm := fun ws => Permutation_sym (Permutation_rev (dedupe ws)) |}.

(** [xs.append(x)] on a list, as a new list. *)
Definition list_append (xs : list string) (x : string) : list string :=
  (xs ++ [x])%list.

(** [d[k] = v] on a dict, kept as the list of its items in insertion
    order: the value of a key that is there is replaced where the key is, a
    new key goes to the end. *)
Fixpoint dict_set {V : Type} (d : list (string * V)) (k : string) (v : V)
  : list (string * V) :=
  match d with
  | [] => [(k, v)]
  | (k', v') :: d' =>
      if k' =? k then (k', v) :: d' else (k', v') :: dict_set d' k v
  end.

(** [dict(pairs)]: the pairs are set one after the other, so a key that
    comes again keeps its place and takes the later value. *)
Definition dict {V : Type} (pairs : list (string * V)) : list (string * V) :=
  fold_left (fun d kv => dict_set d (fst kv) (snd kv)) pairs [].

(** A call that either returns a value or raises an exception with a
    message. *)
Inductive outcome (A : Type) : Type :=
| Return (a : A)
| Raise (msg : string).
Arguments Return {A} a.
Arguments Raise {A} msg.

End Py.

Import Py.

(* ================================================================== *)
(** ** src/llm_sql.py *)
(* ================================================================== *)

Definition dquote : string := String (ascii_of_N 34) EmptyString.

Definition SYSTEM_PROMPT : string :=
"
You are an assistant that helps generate MySQL SELECT queries.

Database:
- Single table: tickets
- Columns: id, text, category, priority, status, created_at

Your job:
- Given a natural language question, suggest either:
  * a list of columns to select, or
  * a COUNT-style expression if the user is asking " ++ dquote ++ "how many" ++ dquote ++ ".

Rules:
- DO NOT write full SQL.
- DO NOT include FROM, WHERE, JOIN, LIMIT.
- Output only column names or COUNT(*).
".

Definition nl : string := String newline EmptyString.

Definition build_prompt (question : string) : string :=
  strip SYSTEM_PROMPT
  ++ nl ++ nl ++ "User question: " ++ strip question
  ++ nl ++ "Expression:".

(** The tokenizer, the model and the decoder of [generate_sql_from_question]
    taken together: from the prompt to the decoded text.  [get_model] only
    decides when the two are loaded. *)
Definition Suggester : Type := string -> outcome string.

Definition stop_words : list string :=
  [ "show"; "me"; "all"; "the"; "tickets"; "ticket";
    "with"; "that"; "are"; "is"; "of"; "for"; "in";
    "high"; "medium"; "low";
    "priority"; "status"; "open"; "closed";
    "technical"; "billing"; "general";
    "today"; "yesterday"; "week"; "month"; "this"; "last" ].

Definition _extract_text_keywords (O : SetOrder) (question : string) : list string :=
  let words :=
    map lower
      (filter (fun w => negb (mem (lower w) stop_words))
              (findall_letters3 question)) in
  list_of_set O words.

Definition like_clause (kw : string) : string :=
  "LOWER(text) LIKE '%" ++ kw ++ "%'".

Definition _build_conditions_from_question (O : SetOrder) (question : string)
  : list string :=
  let q := lower question in
  let conditions : list string := [] in
  let conditions :=
    if contains "high" q then list_append conditions "priority = 'High'"
    else if contains "medium" q then list_append conditions "priority = 'Medium'"
    else if contains "low" q then list_append conditions "priority = 'Low'"
    else conditions in
  let conditions :=
    if contains "technical" q || contains "tech" q
    then list_append conditions "category = 'Technical'" else conditions in
  let conditions :=
    if contains "billing" q || contains "payment" q || contains "refund" q
    then list_append conditions "category = 'Billing'" else conditions in
  let conditions :=
    if contains "general" q || contains "account" q || contains "profile" q
    then list_append conditions "category = 'General'" else conditions in
  let conditions :=
    if contains "open" q then list_append conditions "status = 'Open'" else conditions in
  let conditions :=
    if contains "closed" q || contains "resolved" q
    then list_append conditions "status = 'Closed'" else conditions in
  let conditions :=
    if contains "today" q
    then list_append conditions "DATE(created_at) = CURDATE()"
    else if contains "yesterday" q
    then list_append conditions "DATE(created_at) = (CURDATE() - INTERVAL 1 DAY)"
    else if contains "this week" q || contains "last 7 days" q
    then list_append conditions "created_at >= (CURDATE() - INTERVAL 7 DAY)"
    else if contains "this month" q
    then list_append conditions "created_at >= DATE_FORMAT(CURDATE(), '%Y-%m-01')"
    else conditions in
  let keywords := _extract_text_keywords O question in
  match keywords with
  | [] => conditions
  | _ :: _ =>
      let likes := map like_clause keywords in
      list_append conditions ("(" ++ join " OR " likes ++ ")")
  end.

Definition default_columns : string :=
  "id, text, category, priority, status, created_at".

Definition forbidden : list string :=
  [ "from"; "where"; "join"; "limit"; "tickets" ].

Definition _clean_columns_expression (expr : string) : string :=
  let expr := lower (strip expr) in
  if contains "count" expr then "COUNT(*)"
  else
    let parts := map strip (split_comma expr) in
    if forallb match_column_chars parts
       && negb (existsb (fun f => contains f expr) forbidden)
    then join ", " parts
    else default_columns.

Definition generate_sql_from_question
  (O : SetOrder) (suggest : Suggester) (question : string) : outcome string :=
  let q_lower := lower question in
  let prompt := build_prompt question in
  match suggest prompt with
  | Raise msg => Raise msg
  | Return expr =>
      let expr := _clean_columns_expression expr in
      let is_count :=
        contains "how many" q_lower || contains "count" q_lower
        || contains "count(" (lower expr) in
      let select_clause :=
        if is_count then "SELECT COUNT(*) AS count" else "SELECT " ++ expr in
      let conditions := _build_conditions_from_question O question in
      let sql := select_clause ++ " FROM tickets" in
      let sql :=
        match conditions with
        | [] => sql
        | _ :: _ => sql ++ " WHERE " ++ join " AND " conditions
        end in
      let sql := if negb is_count then sql ++ " LIMIT 50" else sql in
      Return (sql ++ ";")
  end.

Definition explain_sql (sql : string) : string :=
  let sql_lower := lower sql in
  let explanation : list string := [] in
  let explanation :=
    if contains "count(*)" sql_lower
    then list_append explanation "This query counts the number of tickets"
    else list_append explanation "This query retrieves ticket details" in
  let explanation :=
    if contains "priority = 'high'" sql_lower
    then list_append explanation "with high priority" else explanation in
  let explanation :=
    if contains "priority = 'medium'" sql_lower
    then list_append explanation "with medium priority" else explanation in
  let explanation :=
    if contains "priority = 'low'" sql_lower
    then list_append explanation "with low priority" else explanation in
  let explanation :=
    if contains "category = 'technical'" sql_lower
    then list_append explanation "related to technical issues" else explanation in
  let explanation :=
    if contains "category = 'billing'" sql_lower
    then list_append explanation "related to billing issues" else explanation in
  let explanation :=
    if contains "category = 'general'" sql_lower
    then list_append explanation "related to general issues" else explanation in
  let explanation :=
    if contains "status = 'open'" sql_lower
    then list_append explanation "that are currently open" else explanation in
  let explanation :=
    if contains "status = 'closed'" sql_lower
    then list_append explanation "that are closed" else explanation in
  let explanation :=
    if contains "limit" sql_lower
    then list_append explanation "and limits the results to 50 records" else explanation in
  capitalize (join " " explanation) ++ ".".

(* ================================================================== *)
(** ** src/app.py: the /nl-query route *)
(* ================================================================== *)

Record HTTPException : Type := {
  status_code : nat;
  detail : string
}.

Section Route.

(** The values stored in the cells of a result row. *)
Variable Cell : Type.

Record NLQueryResponse : Type := {
  sql : string;
  explanation : string;
  columns : list string;
  rows : list (list (string * Cell));
  total_records : nat
}.

(** [db.execute(text(sql))] with [result.keys()] and [result.fetchall()]:
    the column names and the row tuples, or a raised exception. *)
Definition Database : Type := string -> outcome (list string * list (list Cell)).

(** [explain_sql] raises nothing, so the [except] branch that substitutes a
    generic explanation is not taken.  A row is [dict(zip(columns, row))]:
    [zip] stops at the shorter of the two, and a column name that comes
    twice gives one item, with the later cell. *)
Definition nl_query (O : SetOrder) (suggest : Suggester) (db : Database)
  (question : string) : HTTPException + NLQueryResponse :=
  if strip question =? "" then
    inl {| status_code := 400; detail := "Question cannot be empty" |}
  else
    match generate_sql_from_question O suggest question with
    | Raise e =>
        inl {| status_code := 400; detail := "LLM SQL error: " ++ e |}
    | Return sql =>
        if negb (startswith "select" (strip (lower sql))) then
          inl {| status_code := 400;
                 detail := "Only SELECT queries are allowed" |}
        else
          let explanation := explain_sql sql in
          match db sql with
          | Raise e =>
              inl {| status_code := 400;
                     detail := "SQL execution error: " ++ e |}
          | Return (columns, result_rows) =>
              let rows :=
                map (fun row => dict (combine columns row)) result_rows in
              inr {| sql := sql;
                     explanation := explanation;
                     columns := columns;
                     rows := rows;
                     total_records := List.length rows |}
          end
    end.

End Route.

Arguments nl_query {Cell} O suggest db question.

(* ================================================================== *)
(** ** Vocabulary of the specification, and auxiliary definitions *)
(* ================================================================== *)

(** A suggester that answers the same text to every prompt. *)
Definition constant_suggester (answer : string) : Suggester :=
  fun _ => Return answer.

(** Every character of [s] satisfies [P]. *)
Fixpoint all_chars (P : ascii -> bool) (s : string) : bool :=
  match s with
  | EmptyString => true
  | String c s' => P c && all_chars P s'
  end.

(** A character that [strip] leaves in place. *)
Definition visible (c : ascii) : bool := negb (is_space c).

(** All the ways to cut [n] in two. *)
Fixpoint splits (n : string) : list (string * string) :=
  (EmptyString, n) ::
  match n with
  | EmptyString => []
  | String c n' => map (fun p => (String c (fst p), snd p)) (splits n')
  end.

(** No occurrence of [n] can lie across the border between a text whose
    characters all satisfy [P] and the text [b]. *)
Definition no_straddle (P : ascii -> bool) (n b : string) : bool :=
  forallb (fun p => (fst p =? "") || (snd p =? "")
                    || negb (all_chars P (fst p)) || negb (startswith (snd p) b))
          (splits n).

(** The letter M never directly follows the letter I ([after_I] tells
    whether the character before [s] is an I). *)
Fixpoint no_IM (after_I : bool) (s : string) : bool :=
  match s with
  | EmptyString => true
  | String c s' => negb (after_I && (c =? "M")%char) && no_IM (c =? "I")%char s'
  end.

(** The SQL text in the shape the generator gives it. *)
Definition assembled (is_count : bool) (expr : string) (conditions : list string)
  : string :=
  (if is_count then "SELECT COUNT(*) AS count" else "SELECT " ++ expr)
  ++ " FROM tickets"
  ++ match conditions with
     | [] => ""
     | _ :: _ => " WHERE " ++ join " AND " conditions
     end
  ++ (if is_count then "" else " LIMIT 50")
  ++ ";".

(** The phrases of an explanation, from the lower-cased SQL text. *)
Definition phrase_if (b : bool) (phrase : string) : list string :=
  if b then [phrase] else [].

Definition explanation_phrases (sql_lower : string) : list string :=
  (if contains "count(*)" sql_lower
   then "This query counts the number of tickets"
   else "This query retrieves ticket details")
  :: (phrase_if (contains "priority = 'high'" sql_lower) "with high priority"
  ++ phrase_if (contains "priority = 'medium'" sql_lower) "with medium priority"
  ++ phrase_if (contains "priority = 'low'" sql_lower) "with low priority"
  ++ phrase_if (contains "category = 'technical'" sql_lower)
       "related to technical issues"
  ++ phrase_if (contains "category = 'billing'" sql_lower)
       "related to billing issues"
  ++ phrase_if (contains "category = 'general'" sql_lower)
       "related to general issues"
  ++ phrase_if (contains "status = 'open'" sql_lower) "that are currently open"
  ++ phrase_if (contains "status = 'closed'" sql_lower) "that are closed"
  ++ phrase_if (contains "limit" sql_lower)
       "and limits the results to 50 records")%list.

(** The conditions of the builder, rule group by rule group, from the
    lower-cased question [q]; the free-text group needs the question itself. *)
Definition priority_part (q : string) : list string :=
  if contains "high" q then ["priority = 'High'"]
  else if contains "medium" q then ["priority = 'Medium'"]
  else if contains "low" q then ["priority = 'Low'"]
  else [].

Definition technical_part (q : string) : list string :=
  phrase_if (contains "technical" q || contains "tech" q) "category = 'Technical'".

Definition billing_part (q : string) : list string :=
  phrase_if (contains "billing" q || contains "payment" q || contains "refund" q)
            "category = 'Billing'".

Definition general_part (q : string) : list string :=
  phrase_if (contains "general" q || contains "account" q || contains "profile" q)
            "category = 'General'".

Definition open_part (q : string) : list string :=
  phrase_if (contains "open" q) "status = 'Open'".

Definition closed_part (q : string) : list string :=
  phrase_if (contains "closed" q || contains "resolved" q) "status = 'Closed'".

Definition date_part (q : string) : list string :=
  if contains "today" q
  then ["DATE(created_at) = CURDATE()"]
  else if contains "yesterday" q
  then ["DATE(created_at) = (CURDATE() - INTERVAL 1 DAY)"]
  else if contains "this week" q || contains "last 7 days" q
  then ["created_at >= (CURDATE() - INTERVAL 7 DAY)"]
  else if contains "this month" q
  then ["created_at >= DATE_FORMAT(CURDATE(), '%Y-%m-01')"]
  else [].

Definition free_text_part (O : SetOrder) (question : string) : list string :=
  match _extract_text_keywords O question with
  | [] => []
  | kw :: kws => ["(" ++ join " OR " (map like_clause (kw :: kws)) ++ ")"]
  end.

(** The rule groups of the condition builder that work on a fixed
    vocabulary, the keywords each one looks for in the question, and the
    conditions each one can give. *)
Inductive RuleGroup : Type :=
| PriorityRule | CategoryRule | StatusRule | DateRule.

Definition recognized_keywords : list (string * RuleGroup) :=
  [ ("high", PriorityRule); ("medium", PriorityRule); ("low", PriorityRule);
    ("technical", CategoryRule); ("tech", CategoryRule);
    ("billing", CategoryRule); ("payment", CategoryRule);
    ("refund", CategoryRule);
    ("general", CategoryRule); ("account", CategoryRule);
    ("profile", CategoryRule);
    ("open", StatusRule); ("closed", StatusRule); ("resolved", StatusRule);
    ("today", DateRule); ("yesterday", DateRule); ("this week", DateRule);
    ("last 7 days", DateRule); ("this month", DateRule) ].

Definition vocabulary_conditions : list (string * RuleGroup) :=
  [ ("priority = 'High'", PriorityRule); ("priority = 'Medium'", PriorityRule);
    ("priority = 'Low'", PriorityRule);
    ("category = 'Technical'", CategoryRule);
    ("category = 'Billing'", CategoryRule);
    ("category = 'General'", CategoryRule);
    ("status = 'Open'", StatusRule); ("status = 'Closed'", StatusRule);
    ("DATE(created_at) = CURDATE()", DateRule);
    ("DATE(created_at) = (CURDATE() - INTERVAL 1 DAY)", DateRule);
    ("created_at >= (CURDATE() - INTERVAL 7 DAY)", DateRule);
    ("created_at >= DATE_FORMAT(CURDATE(), '%Y-%m-01')", DateRule) ].

(** The three categories, the condition the builder gives for each and the
    phrase the explanation has for each. *)
Inductive Category : Type := Technical | Billing | General.

Definition category_condition (c : Category) : string :=
  match c with
  | Technical => "category = 'Technical'"
  | Billing => "category = 'Billing'"
  | General => "category = 'General'"
  end.

Definition category_phrase (c : Category) : string :=
  match c with
  | Technical => "related to technical issues"
  | Billing => "related to billing issues"
  | General => "related to general issues"
  end.

Definition not_quote (c : ascii) : bool := negb (c =? "'")%char.

(** A test holds for both truth values, for the three categories. *)
Definition both (f : bool -> bool) : bool := f true && f false.

Definition every_category (f : Category -> bool) : bool :=
  f Technical && f Billing && f General.

Definition count_intent (question raw : string) : bool :=
  contains "how many" (lower question) || contains "count" (lower question)
  || contains "count(" (lower (_clean_columns_expression raw)).

(* ================================================================== *)
(** ** src/llm_sql.py: the lazily loaded model *)
(* ================================================================== *)

Section Model.

Variables Tokenizer Model : Type.

(** The two module-level variables of [get_model]. *)
Record ModelCache : Type := {
  _tokenizer : option Tokenizer;
  _model : option Model
}.

(** [load_tokenizer] and [load_model] are what the two calls to
    [from_pretrained] give if they are made: a value or a raised exception.
    The tokenizer is assigned before the model is loaded, so an exception of
    the second call leaves the first assignment in place.  The result is the
    returned pair (or the exception) and the cache after the call. *)
Definition get_model (load_tokenizer : outcome Tokenizer)
  (load_model : outcome Model) (cache : ModelCache)
  : outcome (Tokenizer * Model) * ModelCache :=
  match _tokenizer cache, _model cache with
  | Some t, Some m => (Return (t, m), cache)
  | _, _ =>
      match load_tokenizer with
      | Raise e => (Raise e, cache)
      | Return t =>
          let cache := {| _tokenizer := Some t; _model := _model cache |} in
          match load_model with
          | Raise e => (Raise e, cache)
          | Return m =>
              let cache := {| _tokenizer := _tokenizer cache; _model := Some m |} in
              (Return (t, m), cache)
          end
      end
  end.

End Model.

Arguments _tokenizer {Tokenizer Model} _.
Arguments _model {Tokenizer Model} _.
Arguments get_model {Tokenizer Model} load_tokenizer load_model cache.

(* ================================================================== *)
(** ** Character classes and tables used by the further properties *)
(* ================================================================== *)

Definition not_star (c : ascii) : bool := negb (c =? "*")%char.
Definition not_comma (c : ascii) : bool := negb (c =? ",")%char.
Definition not_upper (c : ascii) : bool := negb (is_upper c).

(** A character of a word of the forbidden list: visible and not a comma. *)
Definition word_char (c : ascii) : bool := visible c && not_comma c.

(** The characters of an accepted projection: [a-z0-9_() ] and the comma. *)
Definition projection_char (c : ascii) : bool :=
  is_ascii_lower c || is_digit c ||
  (c =? "_")%char || (c =? "(")%char || (c =? ")")%char || (c =? " ")%char ||
  (c =? ",")%char.

(** The characters of a condition: letters, digits and the punctuation of
    the fixed fragments. *)
Definition condition_char (c : ascii) : bool :=
  is_ascii_letter c || is_digit c ||
  existsb (Ascii.eqb c) [" "; "="; "'"; "("; ")"; "-"; "_"; ">"; "%"; ","]%char.

(** The characters of a statement before its final semicolon. *)
Definition statement_char (c : ascii) : bool :=
  condition_char c || (c =? "*")%char.

(** The last character of [String c s]. *)
Fixpoint last_char (c : ascii) (s : string) : ascii :=
  match s with
  | EmptyString => c
  | String d s' => last_char d s'
  end.

(** A text that begins and ends with a visible character. *)
Definition ends_visible (n : string) : bool :=
  match n with
  | EmptyString => false
  | String c s => visible c && visible (last_char c s)
  end.

(** The conditions that the explanation knows, each with its phrase. *)
Definition reported_conditions : list (string * string) :=
  [ ("priority = 'High'", "with high priority");
    ("priority = 'Medium'", "with medium priority");
    ("priority = 'Low'", "with low priority");
    ("category = 'Technical'", "related to technical issues");
    ("category = 'Billing'", "related to billing issues");
    ("category = 'General'", "related to general issues");
    ("status = 'Open'", "that are currently open");
    ("status = 'Closed'", "that are closed") ].

(* ================================================================== *)
(** ** Facts about characters and strings *)
(* ================================================================== *)

Ltac each_char c := destruct c as [[] [] [] [] [] [] [] []].

Lemma append_nil_r (s : string) : s ++ "" = s.
Proof. induction s as [|c s IH]; simpl; [reflexivity | now rewrite IH]. Qed.

Lemma append_assoc (a b c : string) : (a ++ b) ++ c = a ++ b ++ c.
Proof. induction a as [|x a IH]; simpl; [reflexivity | now rewrite IH]. Qed.

Lemma lower_app (a b : string) : lower (a ++ b) = lower a ++ lower b.
Proof. induction a as [|x a IH]; simpl; [reflexivity | now rewrite IH]. Qed.

Lemma is_space_lower_char (c : ascii) : is_space (lower_char c) = is_space c.
Proof. each_char c; reflexivity. Qed.

Lemma lower_char_not_M (c : ascii) : (lower_char c =? "M")%char = false.
Proof. each_char c; reflexivity. Qed.

Lemma lower_char_quote (c : ascii) :
  (lower_char c =? "'")%char = (c =? "'")%char.
Proof. each_char c; reflexivity. Qed.

Lemma column_char_not_quote (c : ascii) :
  is_column_char c = true -> (c =? "'")%char = false.
Proof. each_char c; simpl; intro H; try reflexivity; discriminate H. Qed.

(** *** startswith, endswith, contains *)

Lemma startswith_app (p s : string) : startswith p (p ++ s) = true.
Proof.
  induction p as [|c p IH]; simpl; [reflexivity|].
  now rewrite Ascii.eqb_refl, IH.
Qed.

Lemma startswith_spec (p s : string) :
  startswith p s = true <-> exists t, s = p ++ t.
Proof.
  split.
  - revert s; induction p as [|c p IH]; intros s H.
    + now exists s.
    + destruct s as [|d s]; simpl in H; [discriminate|].
      apply andb_true_iff in H as [Hc Hp].
      apply Ascii.eqb_eq in Hc; subst d.
      destruct (IH _ Hp) as [t ->]. now exists t.
  - intros [t ->]. apply startswith_app.
Qed.

Lemma endswith_app (a p : string) : endswith p (a ++ p) = true.
Proof.
  induction a as [|c a IH]; simpl.
  - destruct p; simpl; [reflexivity|].
    now rewrite String.eqb_refl, Ascii.eqb_refl.
  - rewrite IH. apply orb_true_r.
Qed.

Lemma contains_head (n s : string) :
  startswith n s = true -> contains n s = true.
Proof. intro H. destruct s; simpl in *; rewrite H; reflexivity. Qed.

Lemma contains_app_r (n a b : string) :
  contains n b = true -> contains n (a ++ b) = true.
Proof.
  intro H. induction a as [|c a IH]; simpl; [exact H|].
  rewrite IH. apply orb_true_r.
Qed.

Lemma startswith_app_l (n a b : string) :
  startswith n a = true -> startswith n (a ++ b) = true.
Proof.
  intro H. apply startswith_spec in H as [t ->].
  rewrite append_assoc. apply startswith_app.
Qed.

Lemma contains_app_l (n a b : string) :
  contains n a = true -> contains n (a ++ b) = true.
Proof.
  induction a as [|c a IH]; simpl; intro H.
  - rewrite orb_false_r in H. apply contains_head.
    destruct n; [reflexivity | discriminate H].
  - apply orb_true_iff in H as [H|H].
    + change (String c (a ++ b)) with (String c a ++ b).
      rewrite (startswith_app_l _ _ _ H). reflexivity.
    + rewrite (IH H). apply orb_true_r.
Qed.

Lemma contains_spec (n s : string) :
  contains n s = true <-> exists a b, s = a ++ n ++ b.
Proof.
  split.
  - induction s as [|c s IH]; simpl; intro H.
    + rewrite orb_false_r in H. apply startswith_spec in H as [t ->].
      now exists "", t.
    + apply orb_true_iff in H as [H|H].
      * apply startswith_spec in H as [t ->]. now exists "", t.
      * destruct (IH H) as (a & b & ->). now exists (String c a), b.
  - intros (a & b & ->). apply contains_app_r, contains_app_l, contains_head.
    rewrite <- (append_nil_r n) at 2. apply startswith_app.
Qed.

(** An occurrence of [n] in [a ++ b] lies in [a], or in [b], or across
    the border. *)
Lemma startswith_app_cases (n y b : string) :
  startswith n (y ++ b) = true ->
  startswith n y = true \/ exists n2, n = y ++ n2 /\ startswith n2 b = true.
Proof.
  revert n; induction y as [|c y IH]; intros n H.
  - right. now exists n.
  - destruct n as [|d n]; [now left|].
    simpl in H. apply andb_true_iff in H as [Hc Hn].
    apply Ascii.eqb_eq in Hc; subst d.
    destruct (IH _ Hn) as [Hy | (n2 & -> & H2)].
    + left. simpl. now rewrite Ascii.eqb_refl.
    + right. now exists n2.
Qed.

Lemma contains_app_cases (n a b : string) :
  contains n (a ++ b) = true ->
  contains n a = true \/ contains n b = true \/
  exists a0 n1 n2, a = a0 ++ n1 /\ n = n1 ++ n2 /\ n1 <> "" /\ n2 <> "" /\
                   startswith n2 b = true.
Proof.
  induction a as [|c a IH]; intro H.
  - right; left; exact H.
  - change (String c a ++ b) with (String c (a ++ b)) in H.
    simpl in H. apply orb_true_iff in H as [H|H].
    + change (String c (a ++ b)) with (String c a ++ b) in H.
      apply startswith_app_cases in H as [H | (n2 & -> & H2)].
      * left. now apply contains_head.
      * destruct n2 as [|d n2].
        -- left. rewrite append_nil_r. apply contains_head.
           rewrite <- (append_nil_r (String c a)) at 2. apply startswith_app.
        -- right; right. exists "", (String c a), (String d n2).
           repeat split; try discriminate. exact H2.
    + destruct (IH H) as [Ha | [Hb | (a0 & n1 & n2 & -> & -> & H1 & H2 & H3)]].
      * left. simpl. rewrite Ha. apply orb_true_r.
      * right; left; exact Hb.
      * right; right. exists (String c a0), n1, n2. now repeat split.
Qed.

Lemma splits_complete (n1 n2 : string) : In (n1, n2) (splits (n1 ++ n2)).
Proof.
  induction n1 as [|c n1 IH]; simpl.
  - destruct n2; left; reflexivity.
  - right. apply in_map_iff. exists (n1, n2). split; [reflexivity | exact IH].
Qed.

Lemma all_chars_app (P : ascii -> bool) (a b : string) :
  all_chars P (a ++ b) = all_chars P a && all_chars P b.
Proof.
  induction a as [|c a IH]; simpl; [reflexivity|].
  now rewrite IH, andb_assoc.
Qed.

Lemma all_chars_contains (P : ascii -> bool) (n s : string) :
  all_chars P s = true -> contains n s = true -> all_chars P n = true.
Proof.
  intros Hs Hn. apply contains_spec in Hn as (a & b & ->).
  rewrite !all_chars_app in Hs.
  apply andb_true_iff in Hs as [_ Hs]. now apply andb_true_iff in Hs as [Hs _].
Qed.

(** The working form: when every character of [a] satisfies [P], the
    needle [n] does not occur in [a] nor in [b], and no cut of [n] fits the
    border, [n] does not occur in [a ++ b]. *)
Lemma contains_app_false (P : ascii -> bool) (n a b : string) :
  all_chars P a = true ->
  contains n a = false ->
  contains n b = false ->
  no_straddle P n b = true ->
  contains n (a ++ b) = false.
Proof.
  intros HP Ha Hb Hs.
  destruct (contains n (a ++ b)) eqn:E; [|reflexivity].
  apply contains_app_cases in E
    as [E | [E | (a0 & n1 & n2 & -> & -> & H1 & H2 & H3)]]; try congruence.
  unfold no_straddle in Hs. rewrite forallb_forall in Hs.
  specialize (Hs _ (splits_complete n1 n2)). simpl in Hs.
  rewrite all_chars_app in HP. apply andb_true_iff in HP as [_ HP].
  rewrite HP, H3 in Hs.
  apply String.eqb_neq in H1, H2. rewrite H1, H2 in Hs. discriminate Hs.
Qed.

(** Appending [b] to a text creates no new occurrence of [n]. *)
Lemma contains_app_stable (n a b : string) :
  contains n b = false ->
  no_straddle (fun _ => true) n b = true ->
  contains n (a ++ b) = contains n a.
Proof.
  intros Hb Hs. destruct (contains n a) eqn:Ha.
  - now apply contains_app_l.
  - apply (contains_app_false (fun _ => true)); auto.
    clear. induction a; simpl; auto.
Qed.

(** *** strip *)

Lemma lstrip_decomp (s : string) :
  exists a, all_chars is_space a = true /\ s = a ++ lstrip s.
Proof.
  induction s as [|c s (a & Ha & IH)]; simpl.
  - now exists "".
  - destruct (is_space c) eqn:E.
    + exists (String c a). simpl. rewrite E, Ha. split; [reflexivity|].
      now rewrite <- IH.
    + now exists "".
Qed.

Lemma rstrip_decomp (s : string) :
  exists b, all_chars is_space b = true /\ s = rstrip s ++ b.
Proof.
  induction s as [|c s (b & Hb & IH)]; simpl.
  - now exists "".
  - destruct (rstrip s) as [|d r] eqn:E.
    + destruct (is_space c) eqn:Ec.
      * exists (String c b). simpl. rewrite Ec, Hb. split; [reflexivity|].
        simpl in IH. now rewrite <- IH.
      * exists b. split; [exact Hb|]. simpl in *. now rewrite <- IH.
    + exists b. split; [exact Hb|]. simpl in *. now rewrite <- IH.
Qed.

Lemma strip_decomp (s : string) :
  exists a b, all_chars is_space a = true /\ all_chars is_space b = true /\
              s = a ++ strip s ++ b.
Proof.
  destruct (lstrip_decomp s) as (a & Ha & E1).
  destruct (rstrip_decomp (lstrip s)) as (b & Hb & E2).
  exists a, b. repeat split; auto. unfold strip. now rewrite <- E2.
Qed.

Lemma all_space_lower (s : string) :
  all_chars is_space (lower s) = all_chars is_space s.
Proof.
  induction s as [|c s IH]; simpl; [reflexivity|].
  now rewrite is_space_lower_char, IH.
Qed.

Lemma rstrip_ends_nonspace (a : string) (c : ascii) :
  is_space c = false -> rstrip (a ++ String c "") = a ++ String c "".
Proof.
  intro Hc. induction a as [|x a IH]; simpl.
  - now rewrite Hc.
  - rewrite IH. destruct a; reflexivity.
Qed.

Lemma startswith_spaces (n s : string) (c : ascii) :
  all_chars is_space s = true -> is_space c = false ->
  startswith (String c n) s = false.
Proof.
  intros Hs Hc. destruct s as [|d s]; simpl; [reflexivity|].
  simpl in Hs. apply andb_true_iff in Hs as [Hd _].
  destruct (Ascii.eqb_spec c d); [congruence | reflexivity].
Qed.

Lemma contains_skip_spaces_l (n a s : string) (c : ascii) :
  all_chars is_space a = true -> is_space c = false ->
  contains (String c n) (a ++ s) = contains (String c n) s.
Proof.
  intros Ha Hc. induction a as [|d a IH]; [reflexivity|].
  simpl in Ha. apply andb_true_iff in Ha as [Hd Ha].
  change (String d a ++ s) with (String d (a ++ s)).
  cbn [contains]. rewrite (IH Ha).
  cbn [startswith]. destruct (Ascii.eqb_spec c d); [congruence | reflexivity].
Qed.

Lemma startswith_drop_spaces_r (n y b : string) :
  all_chars visible n = true -> all_chars is_space b = true ->
  startswith n (y ++ b) = startswith n y.
Proof.
  intros Hn Hb. revert y; induction n as [|c n IH]; intro y; [reflexivity|].
  simpl in Hn. apply andb_true_iff in Hn as [Hc Hn].
  apply negb_true_iff in Hc.
  destruct y as [|d y].
  - simpl (_ ++ _). rewrite (startswith_spaces _ _ _ Hb Hc). reflexivity.
  - simpl. now rewrite IH.
Qed.

Lemma contains_drop_spaces_r (n s b : string) (c : ascii) :
  all_chars visible (String c n) = true -> all_chars is_space b = true ->
  contains (String c n) (s ++ b) = contains (String c n) s.
Proof.
  intros Hn Hb.
  assert (Hc : is_space c = false).
  { simpl in Hn. apply andb_true_iff in Hn as [Hc _]. now apply negb_true_iff. }
  induction s as [|d s IH].
  - simpl (_ ++ _). rewrite <- (append_nil_r b) at 1.
    rewrite (contains_skip_spaces_l _ _ _ _ Hb Hc). reflexivity.
  - change (String d s ++ b) with (String d (s ++ b)).
    cbn [contains]. rewrite IH.
    change (String d (s ++ b)) with (String d s ++ b).
    now rewrite startswith_drop_spaces_r.
Qed.

(** Case-insensitive search for a visible needle sees the same thing in
    [s] and in [s.strip()]. *)
Lemma contains_lower_strip (n s : string) (c : ascii) :
  all_chars visible (String c n) = true ->
  contains (String c n) (lower (strip s)) = contains (String c n) (lower s).
Proof.
  intro Hn.
  destruct (strip_decomp s) as (a & b & Ha & Hb & E).
  rewrite E at 2. rewrite !lower_app.
  assert (Hc : is_space c = false).
  { simpl in Hn. apply andb_true_iff in Hn as [Hc _]. now apply negb_true_iff. }
  rewrite contains_skip_spaces_l, contains_drop_spaces_r;
    auto; now rewrite all_space_lower.
Qed.

(* ================================================================== *)
(** ** The column expression cleaner *)
(* ================================================================== *)

(** C1, as amended.  An expression that contains one of the forbidden words
    [from], [where], [join], [limit], [tickets] in any letter case, and does
    not contain [count] in any letter case, is replaced by the default list
    of six columns, whatever separates its parts. *)
Theorem clean_columns_forbidden_fallback (expr f : string) :
  In f forbidden ->
  contains f (lower expr) = true ->
  contains "count" (lower expr) = false ->
  _clean_columns_expression expr = default_columns.
Proof.
  intros Hf Hin Hcount. unfold _clean_columns_expression. cbv zeta.
  rewrite (contains_lower_strip "ount" expr "c") by reflexivity.
  rewrite Hcount.
  assert (E : existsb (fun w => contains w (lower (strip expr))) forbidden = true).
  { apply existsb_exists. exists f. split; [exact Hf|].
    unfold forbidden in Hf. simpl in Hf.
    repeat (destruct Hf as [<-|Hf];
            [rewrite contains_lower_strip by reflexivity; exact Hin|]).
    contradiction. }
  rewrite E. now rewrite andb_false_r.
Qed.

Lemma clean_columns_forbidden_fallback_witness :
  _clean_columns_expression "DROP TABLE Tickets" = default_columns.
Proof.
  apply (clean_columns_forbidden_fallback "DROP TABLE Tickets" "tickets").
  - simpl. tauto.
  - reflexivity.
  - reflexivity.
Defined.

(** C1, as stated, fails: the test for [count] comes first, so an
    expression with a forbidden word and the word [count] becomes
    the text "COUNT(*)", not the default list. *)
Lemma clean_columns_count_precedes_forbidden :
  contains "from" (lower "COUNT(id) FROM tickets") = true /\
  _clean_columns_expression "COUNT(id) FROM tickets" = "COUNT(*)" /\
  _clean_columns_expression "COUNT(id) FROM tickets" <> default_columns.
Proof. repeat split. discriminate. Qed.

(* ================================================================== *)
(** ** The SQL generator *)
(* ================================================================== *)

(** The generator returns whenever the suggester does, and what it returns
    is the assembled text. *)
Lemma generate_returns (O : SetOrder) (suggest : Suggester) (q raw : string) :
  suggest (build_prompt q) = Return raw ->
  generate_sql_from_question O suggest q =
  Return (assembled (count_intent q raw) (_clean_columns_expression raw)
                    (_build_conditions_from_question O q)).
Proof.
  intro H. unfold generate_sql_from_question. cbv zeta. rewrite H.
  fold (count_intent q raw). unfold assembled. f_equal.
  destruct (count_intent q raw), (_build_conditions_from_question O q);
    cbn [negb]; rewrite ?append_assoc, ?append_nil_r; reflexivity.
Qed.

Lemma generate_inv (O : SetOrder) (suggest : Suggester) (q sql : string) :
  generate_sql_from_question O suggest q = Return sql ->
  exists raw, suggest (build_prompt q) = Return raw /\
    sql = assembled (count_intent q raw) (_clean_columns_expression raw)
                    (_build_conditions_from_question O q).
Proof.
  intro H. destruct (suggest (build_prompt q)) as [raw|msg] eqn:E.
  - exists raw. split; [reflexivity|].
    rewrite (generate_returns O _ _ _ E) in H. now injection H.
  - unfold generate_sql_from_question in H. cbv zeta in H.
    rewrite E in H. discriminate H.
Qed.

Lemma assembled_select (b : bool) (e : string) (cs : list string) :
  exists body, assembled b e cs = "SELECT " ++ body ++ ";".
Proof.
  unfold assembled.
  set (w := match cs with [] => "" | _ :: _ => " WHERE " ++ join " AND " cs end).
  destruct b.
  - exists ("COUNT(*) AS count" ++ " FROM tickets" ++ w).
    rewrite !append_assoc. reflexivity.
  - exists (e ++ " FROM tickets" ++ w ++ " LIMIT 50").
    rewrite !append_assoc. reflexivity.
Qed.

Lemma select_passes_guard (body : string) :
  startswith "select" (strip (lower ("SELECT " ++ body ++ ";"))) = true.
Proof.
  rewrite !lower_app. unfold strip.
  change (lstrip (lower "SELECT " ++ lower body ++ lower ";"))
    with ("select " ++ lower body ++ ";").
  rewrite <- append_assoc. rewrite rstrip_ends_nonspace by reflexivity.
  reflexivity.
Qed.

(** The route never answers that the statement is not a SELECT. *)
Lemma nl_query_statement_kind {Cell : Type} (O : SetOrder) (suggest : Suggester)
  (db : Database Cell) (q : string) :
  nl_query O suggest db q <>
  inl {| status_code := 400; detail := "Only SELECT queries are allowed" |}.
Proof.
  unfold nl_query.
  destruct (strip q =? ""); [discriminate|].
  destruct (generate_sql_from_question O suggest q) as [s|msg] eqn:E.
  - apply generate_inv in E as (raw & _ & ->).
    destruct (assembled_select (count_intent q raw)
                (_clean_columns_expression raw)
                (_build_conditions_from_question O q)) as (body & ->).
    rewrite select_passes_guard. cbn [negb].
    destruct (db _) as [[cols rs]|msg]; [discriminate|].
    cbn [append]. discriminate.
  - cbn [append]. discriminate.
Qed.

(** C2.  Whatever the question and whatever text the suggester answers, the
    generator returns a statement that starts with SELECT, the test made
    by the route (lower-case, strip, starts with "select") succeeds on it,
    and the route never answers "Only SELECT queries are allowed". *)
Theorem generated_sql_is_select (O : SetOrder) (suggest : Suggester)
  (q raw : string) :
  suggest (build_prompt q) = Return raw ->
  exists s : string,
    generate_sql_from_question O suggest q = Return s /\
    startswith "SELECT" s = true /\
    startswith "select" (strip (lower s)) = true /\
    forall (Cell : Type) (db : Database Cell),
      nl_query O suggest db q <>
      inl {| status_code := 400; detail := "Only SELECT queries are allowed" |}.
Proof.
  intro H. eexists. split; [exact (generate_returns O _ _ _ H)|].
  destruct (assembled_select (count_intent q raw)
              (_clean_columns_expression raw)
              (_build_conditions_from_question O q)) as (body & ->).
  split; [reflexivity|]. split; [apply select_passes_guard|].
  intros Cell db. apply nl_query_statement_kind.
Qed.

Lemma generated_sql_is_select_witness :
  exists s : string,
    generate_sql_from_question insertion_order
      (constant_suggester "DELETE FROM tickets") "show open tickets" = Return s /\
    startswith "SELECT" s = true /\
    startswith "select" (strip (lower s)) = true /\
    forall (Cell : Type) (db : Database Cell),
      nl_query insertion_order (constant_suggester "DELETE FROM tickets") db
        "show open tickets" <>
      inl {| status_code := 400; detail := "Only SELECT queries are allowed" |}.
Proof.
  apply (generated_sql_is_select insertion_order
           (constant_suggester "DELETE FROM tickets") "show open tickets"
           "DELETE FROM tickets").
  reflexivity.
Defined.

(** C6.  When the lower-cased question contains neither "how many" nor
    "count" and the cleaned projection does not contain "count(", the
    generator returns a statement that ends with "LIMIT 50;". *)
Theorem non_count_ends_with_limit (O : SetOrder) (suggest : Suggester)
  (q raw : string) :
  suggest (build_prompt q) = Return raw ->
  contains "how many" (lower q) = false ->
  contains "count" (lower q) = false ->
  contains "count(" (lower (_clean_columns_expression raw)) = false ->
  exists s : string,
    generate_sql_from_question O suggest q = Return s /\
    endswith "LIMIT 50;" s = true.
Proof.
  intros H H1 H2 H3. eexists. split; [exact (generate_returns O _ _ _ H)|].
  unfold count_intent. rewrite H1, H2, H3. unfold assembled. cbn [orb].
  set (w := match _build_conditions_from_question O q with
            | [] => "" | _ :: _ => _ end).
  replace (("SELECT " ++ _clean_columns_expression raw)
           ++ " FROM tickets" ++ w ++ " LIMIT 50" ++ ";")
    with ((("SELECT " ++ _clean_columns_expression raw)
           ++ " FROM tickets" ++ w ++ " ") ++ "LIMIT 50;")
    by (rewrite !append_assoc; reflexivity).
  apply endswith_app.
Qed.

Lemma non_count_ends_with_limit_witness :
  exists s : string,
    generate_sql_from_question insertion_order
      (constant_suggester "id, status") "show closed billing tickets" = Return s /\
    endswith "LIMIT 50;" s = true.
Proof.
  apply (non_count_ends_with_limit insertion_order
           (constant_suggester "id, status") "show closed billing tickets"
           "id, status"); reflexivity.
Defined.

(* ================================================================== *)
(** ** The explanation generator *)
(* ================================================================== *)

Lemma list_append_if (b : bool) (l : list string) (x : string) :
  (if b then list_append l x else l) = (l ++ phrase_if b x)%list.
Proof. destruct b; simpl; [reflexivity | now rewrite app_nil_r]. Qed.

Lemma explain_sql_phrases (s : string) :
  explain_sql s = capitalize (join " " (explanation_phrases (lower s))) ++ ".".
Proof.
  unfold explain_sql, explanation_phrases. cbv zeta.
  rewrite !list_append_if.
  destruct (contains "count(*)" (lower s));
    unfold list_append; rewrite <- !app_assoc; reflexivity.
Qed.

Lemma join_cons (sep x : string) (xs : list string) :
  exists rest, join sep (x :: xs) = x ++ rest.
Proof.
  destruct xs as [|y ys].
  - exists "". simpl. now rewrite append_nil_r.
  - now exists (sep ++ join sep (y :: ys)).
Qed.

(** C10.  For every input text, the explanation is not empty, begins with
    "This query" and ends with a period. *)
Theorem explain_sql_shape (s : string) :
  explain_sql s <> "" /\
  startswith "This query" (explain_sql s) = true /\
  endswith "." (explain_sql s) = true.
Proof.
  rewrite explain_sql_phrases. unfold explanation_phrases.
  match goal with |- context [join " " (?x :: ?xs)] =>
    destruct (join_cons " " x xs) as (rest & ->) end.
  split; [|split].
  - destruct (contains "count(*)" (lower s)); discriminate.
  - destruct (contains "count(*)" (lower s)); reflexivity.
  - apply endswith_app.
Qed.

(** C9.  The explanation is a function of the SQL text alone: equal texts
    have equal explanations. *)
Theorem explain_sql_deterministic (sql1 sql2 : string) :
  sql1 = sql2 -> explain_sql sql1 = explain_sql sql2.
Proof. intro E. rewrite E. reflexivity. Qed.

Lemma explain_sql_deterministic_witness :
  explain_sql ("SELECT id FROM tickets" ++ " LIMIT 50;") =
  explain_sql "SELECT id FROM tickets LIMIT 50;".
Proof.
  apply (explain_sql_deterministic ("SELECT id FROM tickets" ++ " LIMIT 50;")
           "SELECT id FROM tickets LIMIT 50;").
  reflexivity.
Defined.

(* ================================================================== *)
(** ** The condition builder *)
(* ================================================================== *)

Lemma list_append_chain3 (b1 b2 b3 : bool) (l : list string) (x1 x2 x3 : string) :
  (if b1 then list_append l x1
   else if b2 then list_append l x2
   else if b3 then list_append l x3 else l)
  = (l ++ (if b1 then [x1] else if b2 then [x2] else if b3 then [x3] else []))%list.
Proof. destruct b1, b2, b3; unfold list_append; now rewrite ?app_nil_r. Qed.

Lemma list_append_chain4 (b1 b2 b3 b4 : bool) (l : list string)
  (x1 x2 x3 x4 : string) :
  (if b1 then list_append l x1
   else if b2 then list_append l x2
   else if b3 then list_append l x3
   else if b4 then list_append l x4 else l)
  = (l ++ (if b1 then [x1] else if b2 then [x2] else if b3 then [x3]
           else if b4 then [x4] else []))%list.
Proof. destruct b1, b2, b3, b4; unfold list_append; now rewrite ?app_nil_r. Qed.

(** The builder's list is the concatenation of what each rule group gives,
    in the order priority, category, status, date, free text. *)
Lemma build_conditions_parts (O : SetOrder) (question : string) :
  _build_conditions_from_question O question =
  (priority_part (lower question) ++ technical_part (lower question)
   ++ billing_part (lower question) ++ general_part (lower question)
   ++ open_part (lower question) ++ closed_part (lower question)
   ++ date_part (lower question) ++ free_text_part O question)%list.
Proof.
  unfold _build_conditions_from_question, free_text_part. cbv zeta.
  rewrite list_append_chain4, list_append_chain3, !list_append_if.
  fold (priority_part (lower question)) (date_part (lower question)).
  fold (technical_part (lower question)) (billing_part (lower question))
       (general_part (lower question)) (open_part (lower question))
       (closed_part (lower question)).
  destruct (_extract_text_keywords O question);
    unfold list_append; cbn [app]; rewrite <- ?app_assoc, ?app_nil_r; reflexivity.
Qed.

(** *** No upper-case LIMIT in the conditions *)

Lemma no_IM_weaken (p : bool) (s : string) :
  no_IM true s = true -> no_IM p s = true.
Proof.
  destruct s as [|c s]; [reflexivity|]. simpl.
  destruct p, (c =? "M")%char; simpl; intro H; auto; discriminate H.
Qed.

Lemma no_IM_app (p : bool) (a b : string) :
  no_IM p a = true -> no_IM true b = true -> no_IM p (a ++ b) = true.
Proof.
  revert p; induction a as [|c a IH]; intros p Ha Hb.
  - now apply no_IM_weaken.
  - simpl in *. apply andb_true_iff in Ha as [H1 H2].
    rewrite H1. now apply IH.
Qed.

Lemma no_IM_lower (p : bool) (s : string) : no_IM p (lower s) = true.
Proof.
  revert p; induction s as [|c s IH]; intro p; [reflexivity|].
  simpl. now rewrite lower_char_not_M, andb_false_r, IH.
Qed.

Lemma no_IM_join (sep : string) (xs : list string) :
  no_IM true sep = true ->
  Forall (fun x => no_IM true x = true) xs ->
  no_IM true (join sep xs) = true.
Proof.
  intros Hsep H. induction H as [|x xs Hx Hxs IH]; [reflexivity|].
  unfold join in *. destruct xs as [|y ys]; [exact Hx|].
  change (String.concat sep (x :: y :: ys))
    with (x ++ sep ++ String.concat sep (y :: ys)).
  auto using no_IM_app.
Qed.

Lemma contains_LIMIT_has_IM (p : bool) (s : string) :
  contains "LIMIT" s = true -> no_IM p s = false.
Proof.
  revert p; induction s as [|c s IH]; intros p H; simpl in H.
  - discriminate H.
  - apply orb_true_iff in H as [H|H].
    + change (startswith "LIMIT" (String c s) = true) in H.
      apply startswith_spec in H as [t E]. rewrite E.
      simpl. destruct p; reflexivity.
    + simpl. rewrite (IH _ H). apply andb_false_r.
Qed.

Lemma dedupe_In (x : string) (ws : list string) : In x (dedupe ws) -> In x ws.
Proof.
  induction ws as [|w ws IH]; simpl; [tauto|].
  intros [H|H]; [now left|]. right. apply IH.
  now apply filter_In in H as [H _].
Qed.

(** Every keyword is a lower-cased word of the question. *)
Lemma keyword_is_lower (O : SetOrder) (question kw : string) :
  In kw (_extract_text_keywords O question) -> exists w, kw = lower w.
Proof.
  unfold _extract_text_keywords. cbv zeta. intro H.
  apply (Permutation_in _ (list_of_set_perm O _)) in H.
  apply dedupe_In, in_map_iff in H as (w & <- & _). now exists w.
Qed.

Lemma priority_part_cases (q : string) :
  priority_part q = [] \/ priority_part q = ["priority = 'High'"] \/
  priority_part q = ["priority = 'Medium'"] \/ priority_part q = ["priority = 'Low'"].
Proof.
  unfold priority_part.
  destruct (contains "high" q), (contains "medium" q), (contains "low" q); auto.
Qed.

Lemma date_part_cases (q : string) :
  date_part q = [] \/ date_part q = ["DATE(created_at) = CURDATE()"] \/
  date_part q = ["DATE(created_at) = (CURDATE() - INTERVAL 1 DAY)"] \/
  date_part q = ["created_at >= (CURDATE() - INTERVAL 7 DAY)"] \/
  date_part q = ["created_at >= DATE_FORMAT(CURDATE(), '%Y-%m-01')"].
Proof.
  unfold date_part.
  destruct (contains "today" q), (contains "yesterday" q),
    (contains "this week" q || contains "last 7 days" q),
    (contains "this month" q); auto 6.
Qed.

Lemma phrase_if_Forall (P : string -> Prop) (b : bool) (x : string) :
  P x -> Forall P (phrase_if b x).
Proof. destruct b; simpl; auto. Qed.

Lemma conditions_no_IM (O : SetOrder) (question : string) :
  Forall (fun c => no_IM true c = true)
         (_build_conditions_from_question O question).
Proof.
  rewrite build_conditions_parts.
  unfold technical_part, billing_part, general_part, open_part, closed_part.
  apply Forall_app; split; [|apply Forall_app; split;
    [apply phrase_if_Forall; reflexivity|apply Forall_app; split;
    [apply phrase_if_Forall; reflexivity|apply Forall_app; split;
    [apply phrase_if_Forall; reflexivity|apply Forall_app; split;
    [apply phrase_if_Forall; reflexivity|apply Forall_app; split;
    [apply phrase_if_Forall; reflexivity|apply Forall_app; split]]]]]].
  - destruct (priority_part_cases (lower question)) as [E|[E|[E|E]]];
      rewrite E; repeat constructor.
  - destruct (date_part_cases (lower question)) as [E|[E|[E|[E|E]]]];
      rewrite E; repeat constructor.
  - unfold free_text_part.
    destruct (_extract_text_keywords O question) as [|kw kws] eqn:E;
      constructor; [|constructor].
    apply (no_IM_app true "("); [reflexivity|].
    apply no_IM_app; [|reflexivity].
    apply no_IM_join; [reflexivity|].
    apply Forall_forall. intros c Hc.
    apply in_map_iff in Hc as (k & <- & Hk).
    rewrite <- E in Hk. apply keyword_is_lower in Hk as [w ->].
    unfold like_clause.
    apply (no_IM_app true "LOWER(text) LIKE '%"); [reflexivity|].
    apply no_IM_app; [apply no_IM_lower | reflexivity].
Qed.

(** C3.  When the lower-cased question contains "how many", whatever the
    suggester answers, the generator returns a statement that contains
    "COUNT(*) AS count" and does not contain "LIMIT": it is the count
    projection, the table, the conditions if there are any, and the
    semicolon. *)
Theorem how_many_counts_without_limit (O : SetOrder) (suggest : Suggester)
  (q raw : string) :
  suggest (build_prompt q) = Return raw ->
  contains "how many" (lower q) = true ->
  exists s : string,
    generate_sql_from_question O suggest q = Return s /\
    contains "COUNT(*) AS count" s = true /\
    contains "LIMIT" s = false /\
    s = "SELECT COUNT(*) AS count FROM tickets"
        ++ match _build_conditions_from_question O q with
           | [] => ""
           | _ :: _ =>
               " WHERE " ++ join " AND " (_build_conditions_from_question O q)
           end
        ++ ";".
Proof.
  intros H Hq. eexists. split; [exact (generate_returns O _ _ _ H)|].
  unfold count_intent. rewrite Hq. cbn [orb]. unfold assembled.
  split; [|split].
  - apply contains_app_l. reflexivity.
  - match goal with |- contains _ ?s = false =>
      destruct (contains "LIMIT" s) eqn:E; [|reflexivity];
      apply (contains_LIMIT_has_IM true) in E; rewrite <- E; clear E; symmetry
    end.
    apply (no_IM_app true "SELECT COUNT(*) AS count"); [reflexivity|].
    apply (no_IM_app true " FROM tickets"); [reflexivity|].
    apply no_IM_app; [|reflexivity].
    destruct (_build_conditions_from_question O q) as [|c cs] eqn:Ec;
      [reflexivity|].
    apply (no_IM_app true " WHERE "); [reflexivity|].
    apply no_IM_join; [reflexivity|].
    rewrite <- Ec. apply conditions_no_IM.
  - reflexivity.
Qed.

Lemma how_many_counts_without_limit_witness :
  exists s : string,
    generate_sql_from_question insertion_order
      (constant_suggester "id, text, limit")
      "How many tickets hit the LIMIT this month" = Return s /\
    contains "COUNT(*) AS count" s = true /\
    contains "LIMIT" s = false /\
    s = "SELECT COUNT(*) AS count FROM tickets"
        ++ match _build_conditions_from_question insertion_order
                   "How many tickets hit the LIMIT this month" with
           | [] => ""
           | _ :: _ =>
               " WHERE " ++ join " AND "
                 (_build_conditions_from_question insertion_order
                    "How many tickets hit the LIMIT this month")
           end
        ++ ";".
Proof.
  apply (how_many_counts_without_limit insertion_order
           (constant_suggester "id, text, limit")
           "How many tickets hit the LIMIT this month" "id, text, limit");
    reflexivity.
Defined.

(** *** The two examples of the specification *)

Lemma keywords_how_many_open (O : SetOrder) :
  _extract_text_keywords O "how many tickets are open" = ["how"; "many"] \/
  _extract_text_keywords O "how many tickets are open" = ["many"; "how"].
Proof.
  pose proof (list_of_set_perm O ["how"; "many"]) as P.
  change (dedupe ["how"; "many"]) with ["how"; "many"] in P.
  apply Permutation_sym, Permutation_length_2_inv in P.
  exact P.
Qed.

(** C4.  What the code returns for the question "how many tickets are
    open", where the count statement with the status condition alone is
    expected.  The stop-word list has neither "how" nor "many", the very
    words by which the generator recognises a count, so both are searched
    in the text column: whatever the suggester answers, the statement
    returned has the status condition and a group of two LIKE tests, in one
    of the two orders. *)
Theorem how_many_tickets_are_open (O : SetOrder) (suggest : Suggester)
  (raw : string) :
  suggest (build_prompt "how many tickets are open") = Return raw ->
  generate_sql_from_question O suggest "how many tickets are open" =
    Return "SELECT COUNT(*) AS count FROM tickets WHERE status = 'Open' AND (LOWER(text) LIKE '%how%' OR LOWER(text) LIKE '%many%');"
  \/
  generate_sql_from_question O suggest "how many tickets are open" =
    Return "SELECT COUNT(*) AS count FROM tickets WHERE status = 'Open' AND (LOWER(text) LIKE '%many%' OR LOWER(text) LIKE '%how%');".
Proof.
  intro H. rewrite (generate_returns O _ _ _ H).
  unfold count_intent.
  replace (contains "how many" (lower "how many tickets are open"))
    with true by reflexivity.
  cbn [orb]. rewrite build_conditions_parts. unfold free_text_part.
  destruct (keywords_how_many_open O) as [K|K]; rewrite K;
    [left | right]; reflexivity.
Qed.

Lemma how_many_tickets_are_open_witness :
  generate_sql_from_question reverse_order (constant_suggester "count(*)")
    "how many tickets are open" =
    Return "SELECT COUNT(*) AS count FROM tickets WHERE status = 'Open' AND (LOWER(text) LIKE '%how%' OR LOWER(text) LIKE '%many%');"
  \/
  generate_sql_from_question reverse_order (constant_suggester "count(*)")
    "how many tickets are open" =
    Return "SELECT COUNT(*) AS count FROM tickets WHERE status = 'Open' AND (LOWER(text) LIKE '%many%' OR LOWER(text) LIKE '%how%');".
Proof.
  apply (how_many_tickets_are_open reverse_order (constant_suggester "count(*)")
           "count(*)").
  reflexivity.
Defined.

(** C4.  At the question "how many tickets are open" the code does not
    return the expected statement, the one with the status condition
    alone. *)
Lemma bare_status_statement_not_returned :
  generate_sql_from_question insertion_order (constant_suggester "COUNT(*)")
    "how many tickets are open" =
    Return "SELECT COUNT(*) AS count FROM tickets WHERE status = 'Open' AND (LOWER(text) LIKE '%how%' OR LOWER(text) LIKE '%many%');"
  /\
  generate_sql_from_question insertion_order (constant_suggester "COUNT(*)")
    "how many tickets are open" <>
    Return "SELECT COUNT(*) AS count FROM tickets WHERE status = 'Open';".
Proof. split; [reflexivity | discriminate]. Qed.

Lemma keywords_high_priority_today (O : SetOrder) :
  _extract_text_keywords O "show me tickets with high priority from today"
  = ["from"].
Proof.
  pose proof (list_of_set_perm O ["from"]) as P.
  change (dedupe ["from"]) with ["from"] in P.
  apply Permutation_sym, Permutation_length_1_inv in P.
  exact P.
Qed.

(** C5.  What the code returns for the question "show me tickets with high
    priority from today" when the cleaner falls back to the default column
    list, where the statement with the priority and date conditions alone
    is expected.  The stop-word list has "with", "of", "for" and "in" but
    not "from", so that word is searched in the text column: the statement
    returned has the priority condition, the date condition and one LIKE
    test on "from", limited to 50 rows. *)
Theorem high_priority_from_today (O : SetOrder) (suggest : Suggester)
  (raw : string) :
  suggest (build_prompt "show me tickets with high priority from today")
    = Return raw ->
  _clean_columns_expression raw = default_columns ->
  generate_sql_from_question O suggest
    "show me tickets with high priority from today" =
    Return "SELECT id, text, category, priority, status, created_at FROM tickets WHERE priority = 'High' AND DATE(created_at) = CURDATE() AND (LOWER(text) LIKE '%from%') LIMIT 50;".
Proof.
  intros H Hraw. rewrite (generate_returns O _ _ _ H).
  unfold count_intent. rewrite Hraw.
  rewrite build_conditions_parts. unfold free_text_part.
  rewrite keywords_high_priority_today. reflexivity.
Qed.

Lemma high_priority_from_today_witness :
  generate_sql_from_question insertion_order
    (constant_suggester "DROP TABLE tickets")
    "show me tickets with high priority from today" =
    Return "SELECT id, text, category, priority, status, created_at FROM tickets WHERE priority = 'High' AND DATE(created_at) = CURDATE() AND (LOWER(text) LIKE '%from%') LIMIT 50;".
Proof.
  apply (high_priority_from_today insertion_order
           (constant_suggester "DROP TABLE tickets") "DROP TABLE tickets");
    reflexivity.
Defined.

(** C5.  At the question "show me tickets with high priority from today",
    with a suggester output that the cleaner rejects and no count intent,
    the code does not return the expected statement, the one with the
    priority and date conditions alone. *)
Lemma priority_and_date_alone_not_returned :
  _clean_columns_expression "DROP TABLE tickets" = default_columns /\
  count_intent "show me tickets with high priority from today"
    "DROP TABLE tickets" = false /\
  generate_sql_from_question insertion_order
    (constant_suggester "DROP TABLE tickets")
    "show me tickets with high priority from today" <>
    Return "SELECT id, text, category, priority, status, created_at FROM tickets WHERE priority = 'High' AND DATE(created_at) = CURDATE() LIMIT 50;".
Proof. repeat split. discriminate. Qed.

(** *** Appending a recognized keyword *)

Lemma phrase_if_mono (b b' : bool) (x c : string) :
  (b = true -> b' = true) -> In c (phrase_if b x) -> In c (phrase_if b' x).
Proof.
  intros Hb H. destruct b; [|contradiction]. now rewrite (Hb eq_refl).
Qed.

Lemma contains_lower_app (n q t : string) :
  contains n (lower q) = true -> contains n (lower (q ++ t)) = true.
Proof. intro H. rewrite lower_app. now apply contains_app_l. Qed.

Lemma orb_mono (a a' b b' : bool) :
  (a = true -> a' = true) -> (b = true -> b' = true) ->
  a || b = true -> a' || b' = true.
Proof.
  intros Ha Hb H. apply orb_true_iff in H as [H|H]; apply orb_true_iff; auto.
Qed.

Ltac grows :=
  repeat (apply orb_mono); apply contains_lower_app.

Lemma independent_parts_grow (q t c : string) :
  (In c (technical_part (lower q)) -> In c (technical_part (lower (q ++ t)))) /\
  (In c (billing_part (lower q)) -> In c (billing_part (lower (q ++ t)))) /\
  (In c (general_part (lower q)) -> In c (general_part (lower (q ++ t)))) /\
  (In c (open_part (lower q)) -> In c (open_part (lower (q ++ t)))) /\
  (In c (closed_part (lower q)) -> In c (closed_part (lower (q ++ t)))).
Proof.
  unfold technical_part, billing_part, general_part, open_part, closed_part.
  repeat split; apply phrase_if_mono; grows.
Qed.

Ltac each_keyword H :=
  unfold recognized_keywords in H; simpl in H;
  repeat (destruct H as [H|H]; [injection H as <- <-|]); [..|contradiction].

Lemma priority_part_stable (q k : string) (g : RuleGroup) :
  In (k, g) recognized_keywords -> g <> PriorityRule ->
  priority_part (lower (q ++ k)) = priority_part (lower q) /\
  priority_part (lower (q ++ " " ++ k)) = priority_part (lower q).
Proof.
  intros Hk Hg. unfold priority_part. rewrite !lower_app.
  each_keyword Hk; try (contradiction Hg; reflexivity);
    rewrite !contains_app_stable by reflexivity; split; reflexivity.
Qed.

Lemma date_chain_mono (t1 t2 t3 t4 t4' : bool) (x1 x2 x3 x4 c : string) :
  (t4 = true -> t4' = true) ->
  In c (if t1 then [x1] else if t2 then [x2] else if t3 then [x3]
        else if t4 then [x4] else []) ->
  In c (if t1 then [x1] else if t2 then [x2] else if t3 then [x3]
        else if t4' then [x4] else []).
Proof.
  intros Ht H. destruct t1, t2, t3, t4; try exact H; try contradiction.
  now rewrite (Ht eq_refl).
Qed.

(** A keyword of another group, appended to the question, may complete the
    words "this month" (as in "this mont" followed by "high"), the last
    test of the date chain, but none of the tests before it. *)
Lemma date_part_grows (q k c : string) (g : RuleGroup) :
  In (k, g) recognized_keywords -> g <> DateRule ->
  In c (date_part (lower q)) ->
  In c (date_part (lower (q ++ k))) /\
  In c (date_part (lower (q ++ " " ++ k))).
Proof.
  intros Hk Hg. unfold date_part. rewrite !lower_app.
  each_keyword Hk; try (contradiction Hg; reflexivity);
    rewrite !(contains_app_stable "today"),
            !(contains_app_stable "yesterday"),
            !(contains_app_stable "this week"),
            !(contains_app_stable "last 7 days") by reflexivity;
    intro H; split; revert H; apply date_chain_mono, contains_app_l.
Qed.

Lemma vocabulary_group_unique (c : string) (g g' : RuleGroup) :
  In (c, g) vocabulary_conditions -> In (c, g') vocabulary_conditions -> g = g'.
Proof.
  unfold vocabulary_conditions. simpl. intros H H'.
  repeat (destruct H as [H|H]; [injection H as <- <-|]); [..|contradiction];
    repeat (destruct H' as [H'|H']; [now inversion H'|]); contradiction.
Qed.

Lemma vocabulary_not_free_text (O : SetOrder) (question c : string)
  (g : RuleGroup) :
  In (c, g) vocabulary_conditions -> ~ In c (free_text_part O question).
Proof.
  unfold free_text_part. intros H Hc.
  destruct (_extract_text_keywords O question) as [|kw kws]; [contradiction|].
  destruct Hc as [<-|[]]. unfold vocabulary_conditions in H. simpl in H.
  repeat (destruct H as [H|H]; [discriminate H|]). contradiction.
Qed.

Lemma priority_part_group (q c : string) :
  In c (priority_part q) -> In (c, PriorityRule) vocabulary_conditions.
Proof.
  destruct (priority_part_cases q) as [E|[E|[E|E]]]; rewrite E;
    simpl; intuition (subst; auto).
Qed.

Lemma date_part_group (q c : string) :
  In c (date_part q) -> In (c, DateRule) vocabulary_conditions.
Proof.
  destruct (date_part_cases q) as [E|[E|[E|[E|E]]]]; rewrite E;
    simpl; intuition (subst; auto 12).
Qed.

(** C7, as amended.  Appending a recognized keyword to a question, directly
    or after a space, never removes a priority, category, status or date
    condition that the builder gave for the question, when the keyword
    belongs to another rule group than the condition.  (The free-text
    group is rebuilt from all the words of the new question.) *)
Theorem vocabulary_conditions_survive_keyword (O : SetOrder)
  (q k c : string) (gk gc : RuleGroup) :
  In (k, gk) recognized_keywords ->
  In (c, gc) vocabulary_conditions ->
  gc <> gk ->
  In c (_build_conditions_from_question O q) ->
  In c (_build_conditions_from_question O (q ++ k)) /\
  In c (_build_conditions_from_question O (q ++ " " ++ k)).
Proof.
  intros Hk Hc Hg H. rewrite !build_conditions_parts in *.
  rewrite !in_app_iff in *.
  destruct (independent_parts_grow q k c) as (T1 & B1 & G1 & O1 & C1).
  destruct (independent_parts_grow q (" " ++ k) c) as (T2 & B2 & G2 & O2 & C2).
  destruct H as [H|[H|[H|[H|[H|[H|[H|H]]]]]]].
  - assert (gc = PriorityRule)
      by (eapply vocabulary_group_unique; eauto using priority_part_group).
    subst gc.
    destruct (priority_part_stable q k gk Hk) as [-> ->]; auto.
  - split; [specialize (T1 H) | specialize (T2 H)]; tauto.
  - split; [specialize (B1 H) | specialize (B2 H)]; tauto.
  - split; [specialize (G1 H) | specialize (G2 H)]; tauto.
  - split; [specialize (O1 H) | specialize (O2 H)]; tauto.
  - split; [specialize (C1 H) | specialize (C2 H)]; tauto.
  - assert (gc = DateRule)
      by (eapply vocabulary_group_unique; eauto using date_part_group).
    subst gc.
    destruct (date_part_grows q k c gk Hk) as [D1 D2]; auto; tauto.
  - exfalso. eapply vocabulary_not_free_text; eauto.
Qed.

Lemma vocabulary_conditions_survive_keyword_witness :
  In "priority = 'Low'"
     (_build_conditions_from_question insertion_order
        ("low priority printer" ++ "refund")) /\
  In "priority = 'Low'"
     (_build_conditions_from_question insertion_order
        ("low priority printer" ++ " " ++ "refund")).
Proof.
  apply (vocabulary_conditions_survive_keyword insertion_order
           "low priority printer" "refund" "priority = 'Low'"
           CategoryRule PriorityRule).
  - simpl. tauto.
  - simpl. tauto.
  - discriminate.
  - simpl. tauto.
Defined.

(** C7, as stated, fails on the free-text condition.  The question
    "printer" gives the condition that the text contains "printer"; after
    the recognized keyword "refund" is appended as a new word, the list no
    longer has that condition: it has the billing category and a group
    that accepts "printer" or "refund". *)
Lemma free_text_condition_replaced :
  In ("refund", CategoryRule) recognized_keywords /\
  _build_conditions_from_question insertion_order "printer"
    = ["(LOWER(text) LIKE '%printer%')"] /\
  _build_conditions_from_question insertion_order ("printer" ++ " " ++ "refund")
    = ["category = 'Billing'";
       "(LOWER(text) LIKE '%printer%' OR LOWER(text) LIKE '%refund%')"] /\
  ~ In "(LOWER(text) LIKE '%printer%')"
       (_build_conditions_from_question insertion_order
          ("printer" ++ " " ++ "refund")).
Proof.
  split; [simpl; tauto|]. split; [reflexivity|]. split; [reflexivity|].
  intros [H|[H|[]]]; discriminate H.
Qed.

(* ================================================================== *)
(** ** From a single category condition to its phrase *)
(* ================================================================== *)

(** The cleaned projection has no quote character. *)
Lemma column_tail_no_quote (s : string) :
  column_tail s = true -> all_chars not_quote s = true.
Proof.
  induction s as [|c s IH]; simpl; [reflexivity|]. intro H.
  apply orb_true_iff in H as [H|H]; apply andb_true_iff in H as [H1 H2].
  - unfold not_quote at 1. now rewrite (column_char_not_quote _ H1), IH.
  - apply Ascii.eqb_eq in H1. apply String.eqb_eq in H2. now subst.
Qed.

Lemma match_column_chars_no_quote (p : string) :
  match_column_chars p = true -> all_chars not_quote p = true.
Proof.
  destruct p as [|c p]; simpl; [discriminate|]. intro H.
  apply andb_true_iff in H as [H1 H2].
  unfold not_quote at 1.
  now rewrite (column_char_not_quote _ H1), (column_tail_no_quote _ H2).
Qed.

Lemma all_chars_join (P : ascii -> bool) (sep : string) (xs : list string) :
  all_chars P sep = true ->
  forallb (all_chars P) xs = true ->
  all_chars P (join sep xs) = true.
Proof.
  intros Hsep. induction xs as [|x xs IH]; [reflexivity|]. intro H.
  simpl in H. apply andb_true_iff in H as [Hx Hxs].
  unfold join in *. destruct xs as [|y ys]; [exact Hx|].
  change (String.concat sep (x :: y :: ys))
    with (x ++ sep ++ String.concat sep (y :: ys)).
  now rewrite !all_chars_app, Hx, Hsep, IH.
Qed.

Lemma forallb_impl {A : Type} (f g : A -> bool) (xs : list A) :
  (forall x, f x = true -> g x = true) ->
  forallb f xs = true -> forallb g xs = true.
Proof.
  intros Hfg. induction xs as [|x xs IH]; simpl; [reflexivity|]. intro H.
  apply andb_true_iff in H as [H1 H2]. now rewrite (Hfg _ H1), IH.
Qed.

Lemma clean_columns_no_quote (raw : string) :
  all_chars not_quote (_clean_columns_expression raw) = true.
Proof.
  unfold _clean_columns_expression. cbv zeta.
  destruct (contains "count" _); [reflexivity|].
  destruct (forallb match_column_chars _) eqn:E; [|reflexivity].
  destruct (negb _); [|reflexivity]. cbn [andb].
  apply all_chars_join; [reflexivity|].
  revert E. apply forallb_impl, match_column_chars_no_quote.
Qed.

Lemma all_chars_not_quote_lower (s : string) :
  all_chars not_quote (lower s) = all_chars not_quote s.
Proof.
  induction s as [|c s IH]; simpl; [reflexivity|].
  unfold not_quote at 1 3. now rewrite lower_char_quote, IH.
Qed.

Lemma both_spec (f : bool -> bool) : both f = true -> forall b, f b = true.
Proof.
  unfold both. intros H b. apply andb_true_iff in H as [H1 H2].
  destruct b; assumption.
Qed.

Lemma every_category_spec (f : Category -> bool) :
  every_category f = true -> forall c, f c = true.
Proof.
  unfold every_category. intros H c.
  apply andb_true_iff in H as [H H3]. apply andb_true_iff in H as [H1 H2].
  destruct c; assumption.
Qed.

(** Turns a goal [test x = true] into the same test made for every [x]. *)
Ltac by_cases x :=
  match goal with
  | |- ?lhs = true =>
      let t := eval pattern x in lhs in
      match t with
      | ?f _ =>
          revert x;
          first [ apply (both_spec f) | apply (every_category_spec f) ]
      end
  end.

(** The explanation has the phrase of a category exactly when the
    lower-cased SQL text has the condition of that category. *)
Lemma explanation_category_phrase (b0 b1 b2 b3 t b g b7 b8 b9 : bool)
  (c : Category) :
  contains (category_phrase c)
    (capitalize (join " "
       ((if b0 then "This query counts the number of tickets"
         else "This query retrieves ticket details")
        :: (phrase_if b1 "with high priority"
        ++ phrase_if b2 "with medium priority"
        ++ phrase_if b3 "with low priority"
        ++ phrase_if t "related to technical issues"
        ++ phrase_if b "related to billing issues"
        ++ phrase_if g "related to general issues"
        ++ phrase_if b7 "that are currently open"
        ++ phrase_if b8 "that are closed"
        ++ phrase_if b9 "and limits the results to 50 records")%list)) ++ ".")
  = match c with Technical => t | Billing => b | General => g end.
Proof.
  apply eqb_prop.
  by_cases b9; by_cases b8; by_cases b7; by_cases g; by_cases b; by_cases t;
    by_cases b3; by_cases b2; by_cases b1; by_cases b0; by_cases c.
  vm_compute. reflexivity.
Qed.

Lemma explain_sql_category (s : string) (c : Category) :
  contains (category_phrase c) (explain_sql s)
  = contains (lower (category_condition c)) (lower s).
Proof.
  rewrite explain_sql_phrases. unfold explanation_phrases.
  rewrite explanation_category_phrase. destruct c; reflexivity.
Qed.

Lemma quoted_needle_absent (n a : string) :
  all_chars not_quote a = true -> all_chars not_quote n = false ->
  contains n a = false.
Proof.
  intros Ha Hn. destruct (contains n a) eqn:E; [|reflexivity].
  rewrite (all_chars_contains _ _ _ Ha E) in Hn. discriminate Hn.
Qed.

(** The lower-cased statement assembled from one category condition has
    the condition of that category and of no other. *)
Lemma single_category_fragments (b : bool) (raw : string) (c c' : Category) :
  contains (lower (category_condition c'))
    (lower (assembled b (_clean_columns_expression raw) [category_condition c]))
    = true
  <-> c' = c.
Proof.
  unfold assembled. destruct b.
  - destruct c, c'; vm_compute; split; congruence.
  - rewrite lower_app.
    assert (Ha : all_chars not_quote
                   (lower ("SELECT " ++ _clean_columns_expression raw)) = true).
    { rewrite all_chars_not_quote_lower, all_chars_app, clean_columns_no_quote.
      reflexivity. }
    destruct c, c'; split; intro H; try reflexivity; try discriminate H;
      match goal with
      | |- contains _ _ = true => apply contains_app_r; reflexivity
      | |- _ =>
          exfalso;
          rewrite (contains_app_false not_quote _ _ _ Ha) in H;
          [ discriminate H
          | apply quoted_needle_absent; [exact Ha | reflexivity]
          | reflexivity
          | reflexivity ]
      end.
Qed.

(** C8.  When the condition builder gives exactly one condition and it is
    a category condition, the explanation of the generated statement has
    the phrase of that category and of no other category. *)
Theorem single_category_explained (O : SetOrder) (suggest : Suggester)
  (q raw : string) (c : Category) :
  suggest (build_prompt q) = Return raw ->
  _build_conditions_from_question O q = [category_condition c] ->
  exists s : string,
    generate_sql_from_question O suggest q = Return s /\
    forall c' : Category,
      contains (category_phrase c') (explain_sql s) = true <-> c' = c.
Proof.
  intros H Hc. eexists. split; [exact (generate_returns O _ _ _ H)|].
  intro c'. rewrite Hc, explain_sql_category.
  apply single_category_fragments.
Qed.

Lemma single_category_explained_witness :
  exists s : string,
    generate_sql_from_question insertion_order
      (constant_suggester "id, category") "show all billing tickets" = Return s /\
    forall c' : Category,
      contains (category_phrase c') (explain_sql s) = true <-> c' = Billing.
Proof.
  apply (single_category_explained insertion_order
           (constant_suggester "id, category") "show all billing tickets"
           "id, category" Billing); reflexivity.
Defined.


(* ================================================================== *)
(** ** Further properties: the keyword extractor *)
(* ================================================================== *)

Lemma length_append (a b : string) :
  String.length (a ++ b) = String.length a + String.length b.
Proof. induction a as [|c a IH]; simpl; [reflexivity | now rewrite IH]. Qed.

Lemma length_lower (s : string) : String.length (lower s) = String.length s.
Proof. induction s as [|c s IH]; simpl; [reflexivity | now rewrite IH]. Qed.

Lemma lower_char_letter (c : ascii) :
  is_ascii_letter c = true -> is_ascii_lower (lower_char c) = true.
Proof. each_char c; simpl; intro H; try reflexivity; discriminate H. Qed.

Lemma lower_letters (w : string) :
  all_chars is_ascii_letter w = true -> all_chars is_ascii_lower (lower w) = true.
Proof.
  induction w as [|c w IH]; simpl; [reflexivity|]. intro H.
  apply andb_true_iff in H as [Hc Hw]. now rewrite (lower_char_letter _ Hc), IH.
Qed.

(** The regular expression gives runs of letters, three at least. *)
Lemma findall_from_words (run s : string) :
  all_chars is_ascii_letter run = true ->
  Forall (fun w => all_chars is_ascii_letter w = true /\ 3 <= String.length w)
         (findall_from run s).
Proof.
  revert run; induction s as [|c s IH]; intros run Hrun; simpl.
  - unfold flush. destruct (Nat.leb_spec 3 (String.length run)); auto.
  - destruct (is_ascii_letter c) eqn:Ec.
    + apply IH. rewrite all_chars_app. simpl. now rewrite Hrun, Ec.
    + apply Forall_app. split; [|now apply IH].
      unfold flush. destruct (Nat.leb_spec 3 (String.length run)); auto.
Qed.

Lemma dedupe_In_iff (x : string) (ws : list string) :
  In x (dedupe ws) <-> In x ws.
Proof.
  split; [apply dedupe_In|].
  induction ws as [|w ws IH]; simpl; [tauto|].
  intros [->|H]; [now left|].
  destruct (String.eqb_spec x w) as [->|Hn]; [now left|].
  right. apply filter_In. split; [now apply IH|].
  apply negb_true_iff. now apply String.eqb_neq.
Qed.

Lemma NoDup_filter {A : Type} (f : A -> bool) (xs : list A) :
  NoDup xs -> NoDup (filter f xs).
Proof.
  induction 1 as [|x xs Hx Hxs IH]; simpl; [constructor|].
  destruct (f x); [|exact IH]. constructor; [|exact IH].
  intro H. apply filter_In in H as [H _]. contradiction.
Qed.

Lemma dedupe_NoDup (ws : list string) : NoDup (dedupe ws).
Proof.
  induction ws as [|w ws IH]; simpl; constructor.
  - intro H. apply filter_In in H as [_ H].
    now rewrite String.eqb_refl in H.
  - now apply NoDup_filter.
Qed.

Lemma keyword_of_word (O : SetOrder) (question kw : string) :
  In kw (_extract_text_keywords O question) ->
  exists w, kw = lower w /\ In w (findall_letters3 question) /\
            mem kw stop_words = false.
Proof.
  unfold _extract_text_keywords. cbv zeta. intro H.
  apply (Permutation_in _ (list_of_set_perm O _)), dedupe_In in H.
  apply in_map_iff in H as (w & <- & Hw).
  apply filter_In in Hw as [Hw Hstop].
  exists w. repeat split; [exact Hw | now apply negb_true_iff in Hstop].
Qed.

Lemma keyword_lower_letters (O : SetOrder) (question kw : string) :
  In kw (_extract_text_keywords O question) ->
  all_chars is_ascii_lower kw = true /\ 3 <= String.length kw.
Proof.
  intro H. apply keyword_of_word in H as (w & -> & Hw & _).
  pose proof (findall_from_words "" question eq_refl) as F.
  rewrite Forall_forall in F. destruct (F _ Hw) as [Hl Hn].
  split; [now apply lower_letters | now rewrite length_lower].
Qed.

(** X1.  Whatever the question and the order of the set, the keywords are
    pairwise distinct, and each one is made of lower-case ASCII letters
    only, has three letters at least and is not a stop word. *)
Theorem keywords_are_plain_words (O : SetOrder) (question : string) :
  NoDup (_extract_text_keywords O question) /\
  Forall (fun kw => all_chars is_ascii_lower kw = true /\
                    3 <= String.length kw /\
                    mem kw stop_words = false)
         (_extract_text_keywords O question).
Proof.
  split.
  - unfold _extract_text_keywords. cbv zeta.
    apply (Permutation_NoDup (Permutation_sym (list_of_set_perm O _))).
    apply dedupe_NoDup.
  - apply Forall_forall. intros kw Hkw.
    destruct (keyword_lower_letters _ _ _ Hkw) as [Hl Hn].
    apply keyword_of_word in Hkw as (w & _ & _ & Hstop). auto.
Qed.

(* ================================================================== *)
(** ** Further properties: the condition builder *)
(* ================================================================== *)

Lemma phrase_if_In (b : bool) (x c : string) :
  In c (phrase_if b x) <-> b = true /\ x = c.
Proof. destruct b; simpl; intuition discriminate. Qed.

Lemma phrase_if_group (b : bool) (x c : string) (g : RuleGroup) :
  In (x, g) vocabulary_conditions -> In c (phrase_if b x) ->
  In (c, g) vocabulary_conditions.
Proof. intros Hx H. apply phrase_if_In in H as [_ <-]. exact Hx. Qed.

Lemma build_conditions_In (O : SetOrder) (question c : string) :
  In c (_build_conditions_from_question O question) <->
  In c (priority_part (lower question)) \/
  (In c (technical_part (lower question)) \/
   In c (billing_part (lower question)) \/
   In c (general_part (lower question))) \/
  (In c (open_part (lower question)) \/ In c (closed_part (lower question))) \/
  In c (date_part (lower question)) \/
  In c (free_text_part O question).
Proof. rewrite build_conditions_parts, !in_app_iff. tauto. Qed.

Lemma category_parts_group (q c : string) :
  In c (technical_part q) \/ In c (billing_part q) \/ In c (general_part q) ->
  In (c, CategoryRule) vocabulary_conditions.
Proof.
  unfold technical_part, billing_part, general_part.
  intros [H|[H|H]]; revert H; apply phrase_if_group; simpl; tauto.
Qed.

Lemma status_parts_group (q c : string) :
  In c (open_part q) \/ In c (closed_part q) ->
  In (c, StatusRule) vocabulary_conditions.
Proof.
  unfold open_part, closed_part.
  intros [H|H]; revert H; apply phrase_if_group; simpl; tauto.
Qed.

(** A condition of the fixed vocabulary is in the list exactly when its own
    rule group gives it. *)
Lemma build_conditions_In_group (O : SetOrder) (question c : string)
  (g : RuleGroup) :
  In (c, g) vocabulary_conditions ->
  (In c (_build_conditions_from_question O question) <->
   match g with
   | PriorityRule => In c (priority_part (lower question))
   | CategoryRule =>
       In c (technical_part (lower question)) \/
       In c (billing_part (lower question)) \/
       In c (general_part (lower question))
   | StatusRule =>
       In c (open_part (lower question)) \/ In c (closed_part (lower question))
   | DateRule => In c (date_part (lower question))
   end).
Proof.
  intro Hc. rewrite build_conditions_In. split.
  - intros [H|[H|[H|[H|H]]]].
    + pose proof (priority_part_group _ _ H) as H'.
      now rewrite (vocabulary_group_unique _ _ _ Hc H').
    + pose proof (category_parts_group _ _ H) as H'.
      now rewrite (vocabulary_group_unique _ _ _ Hc H').
    + pose proof (status_parts_group _ _ H) as H'.
      now rewrite (vocabulary_group_unique _ _ _ Hc H').
    + pose proof (date_part_group _ _ H) as H'.
      now rewrite (vocabulary_group_unique _ _ _ Hc H').
    + exfalso. eapply vocabulary_not_free_text; eauto.
  - destruct g; tauto.
Qed.

Ltac in_vocabulary := unfold vocabulary_conditions; simpl; tauto.

(** X2.  The priority rule gives at most one condition, the first of high,
    medium, low that occurs in the lower-cased question: a question with
    "high" never gets the medium or the low condition. *)
Theorem priority_first_match_wins (O : SetOrder) (question : string) :
  let q := lower question in
  let conditions := _build_conditions_from_question O question in
  (In "priority = 'High'" conditions <-> contains "high" q = true) /\
  (In "priority = 'Medium'" conditions <->
     contains "high" q = false /\ contains "medium" q = true) /\
  (In "priority = 'Low'" conditions <->
     contains "high" q = false /\ contains "medium" q = false /\
     contains "low" q = true).
Proof.
  cbv zeta.
  rewrite !(build_conditions_In_group O question _ PriorityRule) by in_vocabulary.
  unfold priority_part.
  destruct (contains "high" _), (contains "medium" _), (contains "low" _);
    simpl; intuition discriminate.
Qed.

(** X3.  The date rule gives at most one condition, the first of today,
    yesterday, this week or last 7 days, this month that occurs in the
    lower-cased question. *)
Theorem date_first_match_wins (O : SetOrder) (question : string) :
  let q := lower question in
  let conditions := _build_conditions_from_question O question in
  let week := contains "this week" q || contains "last 7 days" q in
  (In "DATE(created_at) = CURDATE()" conditions <-> contains "today" q = true) /\
  (In "DATE(created_at) = (CURDATE() - INTERVAL 1 DAY)" conditions <->
     contains "today" q = false /\ contains "yesterday" q = true) /\
  (In "created_at >= (CURDATE() - INTERVAL 7 DAY)" conditions <->
     contains "today" q = false /\ contains "yesterday" q = false /\
     week = true) /\
  (In "created_at >= DATE_FORMAT(CURDATE(), '%Y-%m-01')" conditions <->
     contains "today" q = false /\ contains "yesterday" q = false /\
     week = false /\ contains "this month" q = true).
Proof.
  cbv zeta.
  rewrite !(build_conditions_In_group O question _ DateRule) by in_vocabulary.
  unfold date_part.
  destruct (contains "today" _), (contains "yesterday" _),
    (contains "this week" _ || contains "last 7 days" _),
    (contains "this month" _);
    simpl; intuition discriminate.
Qed.

(** X4.  The category and status rules are independent of each other: each
    of the five conditions is in the list exactly when one of its own
    keywords occurs in the lower-cased question, so several categories and
    both statuses can be in the list together. *)
Theorem category_and_status_independent (O : SetOrder) (question : string) :
  let q := lower question in
  let conditions := _build_conditions_from_question O question in
  (In "category = 'Technical'" conditions <->
     contains "technical" q || contains "tech" q = true) /\
  (In "category = 'Billing'" conditions <->
     contains "billing" q || contains "payment" q || contains "refund" q = true) /\
  (In "category = 'General'" conditions <->
     contains "general" q || contains "account" q || contains "profile" q = true) /\
  (In "status = 'Open'" conditions <-> contains "open" q = true) /\
  (In "status = 'Closed'" conditions <->
     contains "closed" q || contains "resolved" q = true).
Proof.
  cbv zeta.
  rewrite !(build_conditions_In_group O question _ CategoryRule) by in_vocabulary.
  rewrite !(build_conditions_In_group O question _ StatusRule) by in_vocabulary.
  unfold technical_part, billing_part, general_part, open_part, closed_part.
  rewrite !phrase_if_In. repeat split; intuition discriminate.
Qed.

(** X5.  Every condition of the list is one of the twelve conditions of the
    fixed vocabulary, or the one group of LIKE tests made from all the
    keywords of the question. *)
Theorem conditions_closed_vocabulary (O : SetOrder) (question : string) :
  Forall (fun c =>
            (exists g, In (c, g) vocabulary_conditions) \/
            c = "(" ++ join " OR "
                         (map like_clause (_extract_text_keywords O question))
                ++ ")")
         (_build_conditions_from_question O question).
Proof.
  apply Forall_forall. intros c H. apply build_conditions_In in H.
  destruct H as [H|[H|[H|[H|H]]]].
  - left. eexists. eauto using priority_part_group.
  - left. eexists. eauto using category_parts_group.
  - left. eexists. eauto using status_parts_group.
  - left. eexists. eauto using date_part_group.
  - right. unfold free_text_part in H.
    destruct (_extract_text_keywords O question); [contradiction|].
    now destruct H as [<-|[]].
Qed.

Lemma lower_char_idem (c : ascii) : lower_char (lower_char c) = lower_char c.
Proof. each_char c; reflexivity. Qed.

Lemma lower_idem (s : string) : lower (lower s) = lower s.
Proof.
  induction s as [|c s IH]; simpl; [reflexivity|].
  now rewrite lower_char_idem, IH.
Qed.

Lemma letter_lower_char (c : ascii) :
  is_ascii_letter (lower_char c) = is_ascii_letter c.
Proof. each_char c; reflexivity. Qed.

Lemma flush_lower (run : string) : flush (lower run) = map lower (flush run).
Proof.
  unfold flush. rewrite length_lower.
  now destruct (3 <=? String.length run)%nat.
Qed.

Lemma findall_from_lower (run s : string) :
  findall_from (lower run) (lower s) = map lower (findall_from run s).
Proof.
  revert run; induction s as [|c s IH]; intro run; simpl.
  - apply flush_lower.
  - rewrite letter_lower_char. destruct (is_ascii_letter c).
    + rewrite <- IH, lower_app. reflexivity.
    + rewrite map_app, <- flush_lower. f_equal. apply (IH "").
Qed.

Lemma filter_map {A B : Type} (f : A -> B) (p : B -> bool) (xs : list A) :
  filter p (map f xs) = map f (filter (fun x => p (f x)) xs).
Proof.
  induction xs as [|x xs IH]; simpl; [reflexivity|].
  destruct (p (f x)); simpl; now rewrite IH.
Qed.

Lemma keywords_lower (O : SetOrder) (question : string) :
  _extract_text_keywords O (lower question) = _extract_text_keywords O question.
Proof.
  unfold _extract_text_keywords, findall_letters3. cbv zeta. f_equal.
  change "" with (lower "") at 1. rewrite findall_from_lower.
  rewrite filter_map, map_map.
  rewrite (map_ext _ _ lower_idem).
  f_equal. apply filter_ext. intro w. now rewrite lower_idem.
Qed.

(** X6.  For a question whose characters all have code points below 256
    (the strings of this model, ASCII included), the conditions depend on
    the question only up to letter case: the question and its lower-cased
    form give the same list.  The bound matters: the keywords are cut from
    the question as it is and only then lower-cased, so a character above
    that range whose lower-case form is an ASCII letter (the Kelvin sign
    U+212A) ends a word in the question and not in its lower-cased form. *)
Theorem conditions_ignore_case (O : SetOrder) (question : string) :
  _build_conditions_from_question O (lower question) =
  _build_conditions_from_question O question.
Proof.
  rewrite !build_conditions_parts, lower_idem.
  unfold free_text_part. now rewrite keywords_lower.
Qed.

(* ================================================================== *)
(** ** Further properties: the column expression cleaner *)
(* ================================================================== *)

Lemma clean_columns_cases (raw : string) :
  let e := lower (strip raw) in
  let parts := map strip (split_comma e) in
  _clean_columns_expression raw = "COUNT(*)" \/
  _clean_columns_expression raw = default_columns \/
  (forallb match_column_chars parts = true /\
   existsb (fun f => contains f e) forbidden = false /\
   _clean_columns_expression raw = join ", " parts).
Proof.
  unfold _clean_columns_expression. cbv zeta.
  destruct (contains "count" _); [now left|].
  destruct (forallb match_column_chars _); [|now right; left].
  destruct (existsb _ forbidden); [now right; left|].
  right; right. auto.
Qed.

Lemma all_chars_impl (P Q : ascii -> bool) (s : string) :
  (forall c, P c = true -> Q c = true) ->
  all_chars P s = true -> all_chars Q s = true.
Proof.
  intro HPQ. induction s as [|c s IH]; simpl; [reflexivity|]. intro H.
  apply andb_true_iff in H as [H1 H2]. now rewrite (HPQ _ H1), IH.
Qed.

Lemma all_chars_and (P Q : ascii -> bool) (s : string) :
  all_chars P s = true -> all_chars Q s = true ->
  all_chars (fun c => P c && Q c) s = true.
Proof.
  induction s as [|c s IH]; simpl; [reflexivity|]. intros HP HQ.
  apply andb_true_iff in HP as [HP1 HP2]. apply andb_true_iff in HQ as [HQ1 HQ2].
  now rewrite HP1, HQ1, IH.
Qed.

Lemma all_chars_infix (P : ascii -> bool) (a p b : string) :
  all_chars P (a ++ p ++ b) = true -> all_chars P p = true.
Proof.
  rewrite !all_chars_app. intro H.
  apply andb_true_iff in H as [_ H]. now apply andb_true_iff in H as [H _].
Qed.

Lemma all_chars_strip (P : ascii -> bool) (s : string) :
  all_chars P s = true -> all_chars P (strip s) = true.
Proof.
  destruct (strip_decomp s) as (a & b & _ & _ & E). rewrite E at 1.
  apply all_chars_infix.
Qed.

Lemma split_comma_head (s : string) :
  exists p ps b, split_comma s = p :: ps /\ s = p ++ b.
Proof.
  induction s as [|c s (p & ps & b & E & Es)]; simpl.
  - now exists "", [], "".
  - destruct (c =? ",")%char.
    + now exists "", (split_comma s), (String c s).
    + rewrite E. exists (String c p), ps, b. split; [reflexivity|].
      simpl. now rewrite <- Es.
Qed.

(** Every part of [s.split(",")] is a piece of [s]. *)
Lemma split_comma_infix (s p : string) :
  In p (split_comma s) -> exists a b, s = a ++ p ++ b.
Proof.
  induction s as [|c s IH]; simpl.
  - intros [<-|[]]. now exists "", "".
  - destruct (c =? ",")%char.
    + intros [<-|H]; [now exists "", (String c s)|].
      destruct (IH H) as (a & b & ->). now exists (String c a), b.
    + destruct (split_comma_head s) as (p0 & ps & b0 & E & Es).
      rewrite E in *. intros [<-|H].
      * exists "", b0. simpl. now rewrite <- Es.
      * destruct (IH (or_intror H)) as (a & b & ->). now exists (String c a), b.
Qed.

Lemma rstrip_last_visible (s a : string) (c : ascii) :
  rstrip s = a ++ String c "" -> is_space c = false.
Proof.
  revert a; induction s as [|x s IH]; intros a; simpl.
  - destruct a; discriminate.
  - destruct (rstrip s) as [|d r] eqn:E.
    + destruct (is_space x) eqn:Ex.
      * destruct a; discriminate.
      * destruct a as [|y a]; simpl; intro H.
        -- now injection H as <-.
        -- injection H as _ H. destruct a; discriminate.
    + destruct a as [|y a]; simpl; intro H; [discriminate|].
      injection H as _ H. now apply (IH a).
Qed.

Lemma column_tail_chars (s : string) :
  column_tail s = true ->
  all_chars is_column_char s = true \/ exists a, s = a ++ String newline "".
Proof.
  induction s as [|c s IH]; simpl; [now left|]. intro H.
  apply orb_true_iff in H as [H|H]; apply andb_true_iff in H as [H1 H2].
  - destruct (IH H2) as [Hs|(a & ->)].
    + left. now rewrite H1, Hs.
    + right. now exists (String c a).
  - apply Ascii.eqb_eq in H1. apply String.eqb_eq in H2. subst.
    right. now exists "".
Qed.

(** A stripped part that the regular expression accepts is not empty and
    has the characters of the class only: the newline that "$" tolerates
    at the end cannot be there after [strip]. *)
Lemma accepted_part_chars (p : string) :
  match_column_chars (strip p) = true ->
  strip p <> "" /\ all_chars is_column_char (strip p) = true.
Proof.
  intro H. split; [intro E; rewrite E in H; discriminate H|].
  destruct (strip p) as [|c s] eqn:E; [discriminate H|].
  simpl in H. apply andb_true_iff in H as [H1 H2].
  assert (column_tail (String c s) = true) as H3
    by (simpl; now rewrite H1, H2).
  destruct (column_tail_chars _ H3) as [Hs|(a & Ea)]; [exact Hs|].
  unfold strip in E. rewrite Ea in E.
  apply rstrip_last_visible in E. discriminate E.
Qed.

Lemma is_upper_lower_char (c : ascii) : is_upper (lower_char c) = false.
Proof. each_char c; reflexivity. Qed.

Lemma lower_not_upper (s : string) : all_chars not_upper (lower s) = true.
Proof.
  induction s as [|c s IH]; simpl; [reflexivity|].
  unfold not_upper at 1. now rewrite is_upper_lower_char, IH.
Qed.

Lemma lower_fixed (s : string) : all_chars not_upper s = true -> lower s = s.
Proof.
  induction s as [|c s IH]; simpl; [reflexivity|]. intro H.
  apply andb_true_iff in H as [H1 H2]. rewrite (IH H2).
  unfold lower_char. apply negb_true_iff in H1. now rewrite H1.
Qed.

Lemma column_char_projection (c : ascii) :
  is_column_char c && not_upper c = true -> projection_char c = true.
Proof. each_char c; simpl; intro H; try reflexivity; discriminate H. Qed.

Lemma split_part_chars (P : ascii -> bool) (e p : string) :
  all_chars P e = true -> In p (map strip (split_comma e)) ->
  all_chars P p = true.
Proof.
  intros He H. apply in_map_iff in H as (p0 & <- & H).
  apply all_chars_strip. apply split_comma_infix in H as (a & b & ->).
  now apply all_chars_infix in He.
Qed.

Lemma accepted_parts_chars (e : string) :
  forallb match_column_chars (map strip (split_comma e)) = true ->
  all_chars not_upper e = true ->
  forallb (all_chars projection_char) (map strip (split_comma e)) = true.
Proof.
  intros H He. apply forallb_forall. intros p Hp.
  rewrite forallb_forall in H. specialize (H _ Hp).
  pose proof (split_part_chars _ _ _ He Hp) as Hu.
  apply in_map_iff in Hp as (p0 & <- & _).
  apply accepted_part_chars in H as [_ H].
  apply (all_chars_impl _ _ _ column_char_projection).
  now apply all_chars_and.
Qed.

Lemma clean_columns_projection_chars (raw : string) :
  _clean_columns_expression raw = "COUNT(*)" \/
  all_chars projection_char (_clean_columns_expression raw) = true.
Proof.
  destruct (clean_columns_cases raw) as [E|[E|(Hm & _ & E)]]; rewrite E;
    [now left | now right |].
  right. apply all_chars_join; [reflexivity|].
  apply accepted_parts_chars; [exact Hm | apply lower_not_upper].
Qed.

(** X7.  The cleaned projection is never empty, and it is the text
    "COUNT(*)" or a text made only of lower-case letters, digits,
    underscore, parentheses, space and comma, whatever the suggester
    answered. *)
Theorem cleaned_projection_is_safe (raw : string) :
  _clean_columns_expression raw <> "" /\
  (_clean_columns_expression raw = "COUNT(*)" \/
   all_chars projection_char (_clean_columns_expression raw) = true).
Proof.
  split; [|apply clean_columns_projection_chars].
  destruct (clean_columns_cases raw) as [E|[E|(Hm & _ & E)]]; rewrite E;
    try discriminate.
  destruct (split_comma_head (lower (strip raw))) as (p & ps & b & Ep & _).
  rewrite Ep in *. simpl in Hm. apply andb_true_iff in Hm as [Hp _].
  apply accepted_part_chars in Hp as [Hp _].
  simpl map. destruct (join_cons ", " (strip p) (map strip ps)) as (r & ->).
  destruct (strip p); [contradiction | discriminate].
Qed.

Lemma contains_infix (n a p b : string) :
  contains n p = true -> contains n (a ++ p ++ b) = true.
Proof. intro H. now apply contains_app_r, contains_app_l. Qed.

Lemma contains_strip (n s : string) :
  contains n (strip s) = true -> contains n s = true.
Proof.
  destruct (strip_decomp s) as (a & b & _ & _ & E). rewrite E at 2.
  apply contains_infix.
Qed.

Lemma contains_skip_char (n s : string) (c d : ascii) :
  (c =? d)%char = false ->
  contains (String c n) (String d s) = contains (String c n) s.
Proof. intro H. cbn [contains startswith]. now rewrite H. Qed.

(** A word without space and comma that occurs in [x ++ ", " ++ r] occurs
    in [x] or in [r]. *)
Lemma contains_across_separator (n x r : string) :
  n <> "" -> all_chars word_char n = true ->
  contains n (x ++ ", " ++ r) = true ->
  contains n x = true \/ contains n r = true.
Proof.
  intros Hne Hn H.
  apply contains_app_cases in H
    as [H | [H | (a0 & n1 & n2 & _ & -> & _ & H2 & H3)]].
  - now left.
  - right. destruct n as [|c n]; [contradiction|].
    simpl in Hn. apply andb_true_iff in Hn as [Hc _].
    unfold word_char, visible, not_comma in Hc.
    apply andb_true_iff in Hc as [Hs Hk]. apply negb_true_iff in Hs, Hk.
    change (", " ++ r) with (String "," (String " " r)) in H.
    rewrite contains_skip_char in H by exact Hk.
    rewrite contains_skip_char in H; [exact H|].
    destruct (Ascii.eqb_spec c " ") as [->|]; [discriminate Hs | reflexivity].
  - exfalso. rewrite all_chars_app in Hn. apply andb_true_iff in Hn as [_ Hn].
    destruct n2 as [|c n2]; [contradiction|].
    simpl in H3. apply andb_true_iff in H3 as [Hc _].
    apply Ascii.eqb_eq in Hc. subst c. discriminate Hn.
Qed.

Lemma contains_join_part (n : string) (parts : list string) :
  n <> "" -> all_chars word_char n = true ->
  contains n (join ", " parts) = true ->
  exists p, In p parts /\ contains n p = true.
Proof.
  intros Hne Hn. induction parts as [|x xs IH]; intro H.
  - destruct n; [contradiction | discriminate H].
  - unfold join in *. destruct xs as [|y ys].
    + exists x. split; [now left | exact H].
    + change (String.concat ", " (x :: y :: ys))
        with (x ++ ", " ++ String.concat ", " (y :: ys)) in H.
      apply contains_across_separator in H as [H|H]; auto.
      * exists x. split; [now left | exact H].
      * destruct (IH H) as (p & Hp & Hc). exists p. split; [now right | exact Hc].
Qed.

(** X8.  The cleaned projection never contains one of the words from,
    where, join, limit, tickets, in any letter case: joining the stripped
    parts cannot bring back a word that the expression did not have. *)
Theorem cleaned_projection_has_no_forbidden_word (raw : string) :
  existsb (fun f => contains f (lower (_clean_columns_expression raw))) forbidden
  = false.
Proof.
  destruct (clean_columns_cases raw) as [E|[E|(Hm & Hf & E)]]; rewrite E;
    try reflexivity.
  set (e := lower (strip raw)) in *.
  assert (Hu : all_chars not_upper (join ", " (map strip (split_comma e))) = true).
  { apply all_chars_join; [reflexivity|].
    apply forallb_forall. intros p Hp.
    apply (split_part_chars _ e); [apply lower_not_upper | exact Hp]. }
  rewrite (lower_fixed _ Hu).
  destruct (existsb (fun f => contains f (join _ _)) forbidden) eqn:Ex;
    [|reflexivity].
  apply existsb_exists in Ex as (f & Hin & Hc).
  assert (Hw : f <> "" /\ all_chars word_char f = true).
  { unfold forbidden in Hin. simpl in Hin.
    repeat (destruct Hin as [<-|Hin]; [split; [discriminate | reflexivity]|]).
    contradiction. }
  destruct Hw as [Hne Hw].
  apply contains_join_part in Hc as (p & Hp & Hc); auto.
  apply in_map_iff in Hp as (p0 & <- & Hp).
  apply contains_strip in Hc.
  apply split_comma_infix in Hp as (a & b & Ee).
  assert (contains f e = true) by (rewrite Ee; now apply contains_infix).
  assert (existsb (fun w => contains w e) forbidden = true)
    by (apply existsb_exists; eauto).
  congruence.
Qed.

(* ================================================================== *)
(** ** Further properties: the generated statement *)
(* ================================================================== *)

Lemma lower_letter_condition_char (c : ascii) :
  is_ascii_lower c = true -> condition_char c = true.
Proof. each_char c; simpl; intro H; try reflexivity; discriminate H. Qed.

Lemma conditions_chars (O : SetOrder) (question : string) :
  Forall (fun c => all_chars condition_char c = true)
         (_build_conditions_from_question O question).
Proof.
  apply Forall_forall. intros c H. apply build_conditions_In in H.
  destruct H as [H|[H|[H|[H|H]]]].
  - apply priority_part_group in H. unfold vocabulary_conditions in H.
    simpl in H. repeat (destruct H as [H|H]; [now inversion H|]). contradiction.
  - apply category_parts_group in H. unfold vocabulary_conditions in H.
    simpl in H. repeat (destruct H as [H|H]; [now inversion H|]). contradiction.
  - apply status_parts_group in H. unfold vocabulary_conditions in H.
    simpl in H. repeat (destruct H as [H|H]; [now inversion H|]). contradiction.
  - apply date_part_group in H. unfold vocabulary_conditions in H.
    simpl in H. repeat (destruct H as [H|H]; [now inversion H|]). contradiction.
  - unfold free_text_part in H.
    destruct (_extract_text_keywords O question) as [|kw kws] eqn:E;
      [contradiction|].
    destruct H as [<-|[]].
    rewrite !all_chars_app. apply andb_true_iff. split; [reflexivity|].
    apply andb_true_iff. split; [|reflexivity].
    apply all_chars_join; [reflexivity|].
    apply forallb_forall. intros l Hl.
    apply in_map_iff in Hl as (k & <- & Hk). rewrite <- E in Hk.
    apply keyword_lower_letters in Hk as [Hlow _].
    unfold like_clause. rewrite !all_chars_app.
    rewrite (all_chars_impl _ _ _ lower_letter_condition_char Hlow).
    reflexivity.
Qed.

Lemma projection_statement_char (c : ascii) :
  projection_char c = true -> statement_char c = true.
Proof. each_char c; simpl; intro H; try reflexivity; discriminate H. Qed.

Lemma condition_statement_char (c : ascii) :
  condition_char c = true -> statement_char c = true.
Proof. unfold statement_char. now intros ->. Qed.

Lemma where_clause_chars (O : SetOrder) (question : string) :
  all_chars condition_char
    match _build_conditions_from_question O question with
    | [] => ""
    | _ :: _ =>
        " WHERE " ++ join " AND " (_build_conditions_from_question O question)
    end = true.
Proof.
  pose proof (conditions_chars O question) as F.
  destruct (_build_conditions_from_question O question) as [|c cs];
    [reflexivity|].
  rewrite all_chars_app. apply andb_true_iff. split; [reflexivity|].
  apply all_chars_join; [reflexivity|].
  apply forallb_forall. intros x Hx. rewrite Forall_forall in F. now apply F.
Qed.

(** X9.  Whatever the question and whatever the suggester answers, the
    generated statement is one statement: a text made only of letters,
    digits, space and the characters = ' ( ) - _ > % , and the star,
    followed by the one semicolon that ends it. *)
Theorem generated_statement_is_single (O : SetOrder) (suggest : Suggester)
  (q raw : string) :
  suggest (build_prompt q) = Return raw ->
  exists body : string,
    generate_sql_from_question O suggest q = Return (body ++ ";") /\
    all_chars statement_char body = true.
Proof.
  intro H. rewrite (generate_returns O _ _ _ H). unfold assembled.
  set (w := match _build_conditions_from_question O q with
            | [] => "" | _ :: _ => _ end).
  assert (Hw : all_chars statement_char w = true)
    by apply (all_chars_impl _ _ _ condition_statement_char), where_clause_chars.
  destruct (count_intent q raw).
  - exists ("SELECT COUNT(*) AS count" ++ " FROM tickets" ++ w).
    split; [now rewrite !append_assoc|].
    rewrite !all_chars_app, Hw. reflexivity.
  - exists (("SELECT " ++ _clean_columns_expression raw)
            ++ " FROM tickets" ++ w ++ " LIMIT 50").
    split; [now rewrite !append_assoc|].
    rewrite !all_chars_app, Hw.
    destruct (clean_columns_projection_chars raw) as [->|Hp]; [reflexivity|].
    rewrite (all_chars_impl _ _ _ projection_statement_char Hp). reflexivity.
Qed.

Lemma generated_statement_is_single_witness :
  exists body : string,
    generate_sql_from_question insertion_order
      (constant_suggester "id; DROP TABLE tickets")
      "show printer'; DROP TABLE tickets; -- tickets" = Return (body ++ ";") /\
    all_chars statement_char body = true.
Proof.
  apply (generated_statement_is_single insertion_order
           (constant_suggester "id; DROP TABLE tickets")
           "show printer'; DROP TABLE tickets; -- tickets"
           "id; DROP TABLE tickets").
  reflexivity.
Defined.

Lemma contains_prefix_of_needle (a b s : string) :
  contains (a ++ b) s = true -> contains a s = true.
Proof.
  intro H. apply contains_spec in H as (x & y & ->).
  apply contains_spec. exists x, (b ++ y). now rewrite append_assoc.
Qed.

(** The cleaned projection has "count(" exactly when the suggester's answer
    has "count", in any letter case. *)
Lemma cleaned_count_test (raw : string) :
  contains "count(" (lower (_clean_columns_expression raw))
  = contains "count" (lower raw).
Proof.
  rewrite <- (contains_lower_strip "ount" raw "c") by reflexivity.
  unfold _clean_columns_expression. cbv zeta.
  destruct (contains "count" (lower (strip raw))) eqn:Ec; [reflexivity|].
  set (e := lower (strip raw)) in *.
  destruct (forallb match_column_chars _ && _) eqn:Ea; [|reflexivity].
  assert (Hu : all_chars not_upper (join ", " (map strip (split_comma e))) = true).
  { apply all_chars_join; [reflexivity|].
    apply forallb_forall. intros p Hp.
    apply (split_part_chars _ e); [apply lower_not_upper | exact Hp]. }
  rewrite (lower_fixed _ Hu).
  destruct (contains "count(" _) eqn:Ex; [|reflexivity].
  apply contains_join_part in Ex as (p & Hp & Hc);
    [|discriminate|reflexivity].
  apply in_map_iff in Hp as (p0 & <- & Hp).
  apply contains_strip in Hc.
  apply split_comma_infix in Hp as (a & b & Ee).
  apply (contains_prefix_of_needle "count" "(") in Hc.
  apply (contains_infix _ a _ b) in Hc. rewrite <- Ee in Hc. congruence.
Qed.

(** X10.  The statement is a count exactly when the lower-cased question
    has "how many" or "count", or the suggester's answer has "count" in any
    letter case.  A count statement has the count projection and no LIMIT;
    any other statement has the cleaned projection and LIMIT 50. *)
Theorem count_or_select_statement (O : SetOrder) (suggest : Suggester)
  (q raw : string) :
  suggest (build_prompt q) = Return raw ->
  let conditions := _build_conditions_from_question O q in
  let where_clause :=
    match conditions with
    | [] => ""
    | _ :: _ => " WHERE " ++ join " AND " conditions
    end in
  generate_sql_from_question O suggest q =
  Return
    (if contains "how many" (lower q) || contains "count" (lower q)
        || contains "count" (lower raw)
     then "SELECT COUNT(*) AS count FROM tickets" ++ where_clause ++ ";"
     else "SELECT " ++ _clean_columns_expression raw ++ " FROM tickets"
          ++ where_clause ++ " LIMIT 50;").
Proof.
  intro H. cbv zeta. rewrite (generate_returns O _ _ _ H).
  unfold count_intent, assembled. rewrite cleaned_count_test.
  destruct (_ || _ || _); f_equal; rewrite ?append_assoc; reflexivity.
Qed.

Lemma count_or_select_statement_witness :
  generate_sql_from_question insertion_order
    (constant_suggester "Count of rows") "show open tickets" =
  Return "SELECT COUNT(*) AS count FROM tickets WHERE status = 'Open';".
Proof.
  apply (count_or_select_statement insertion_order
           (constant_suggester "Count of rows") "show open tickets"
           "Count of rows").
  reflexivity.
Defined.

(* ================================================================== *)
(** ** Further properties: the explanation of a generated statement *)
(* ================================================================== *)

Lemma needle_absent (P : ascii -> bool) (n a : string) :
  all_chars P a = true -> all_chars P n = false -> contains n a = false.
Proof.
  intros Ha Hn. destruct (contains n a) eqn:E; [|reflexivity].
  rewrite (all_chars_contains _ _ _ Ha E) in Hn. discriminate Hn.
Qed.

Lemma lower_char_star (c : ascii) : (lower_char c =? "*")%char = (c =? "*")%char.
Proof. each_char c; reflexivity. Qed.

Lemma all_chars_not_star_lower (s : string) :
  all_chars not_star (lower s) = all_chars not_star s.
Proof.
  induction s as [|c s IH]; simpl; [reflexivity|].
  unfold not_star at 1 3. now rewrite lower_char_star, IH.
Qed.

Lemma projection_char_not_star (c : ascii) :
  projection_char c = true -> not_star c = true.
Proof. each_char c; simpl; intro H; try reflexivity; discriminate H. Qed.

Lemma condition_char_not_star (c : ascii) :
  condition_char c = true -> not_star c = true.
Proof. each_char c; simpl; intro H; try reflexivity; discriminate H. Qed.

Lemma explain_sql_first (s : string) :
  startswith "This query counts the number of tickets" (explain_sql s)
    = contains "count(*)" (lower s) /\
  startswith "This query retrieves ticket details" (explain_sql s)
    = negb (contains "count(*)" (lower s)).
Proof.
  rewrite explain_sql_phrases. unfold explanation_phrases.
  match goal with |- context [join " " (?x :: ?xs)] =>
    destruct (join_cons " " x xs) as (rest & ->) end.
  destruct (contains "count(*)" (lower s)); split; reflexivity.
Qed.

Lemma join_snoc (sep x z : string) (xs : list string) :
  join sep ((x :: xs) ++ [z]) = join sep (x :: xs) ++ sep ++ z.
Proof.
  unfold join. revert x; induction xs as [|y ys IH]; intro x; [reflexivity|].
  change (String.concat sep ((x :: y :: ys) ++ [z]))
    with (x ++ sep ++ String.concat sep ((y :: ys) ++ [z])).
  rewrite IH.
  change (String.concat sep (x :: y :: ys))
    with (x ++ sep ++ String.concat sep (y :: ys)).
  now rewrite !append_assoc.
Qed.

Lemma capitalize_app (c : ascii) (s t : string) :
  capitalize (String c s ++ t) = capitalize (String c s) ++ lower t.
Proof. simpl. now rewrite lower_app. Qed.

Lemma capitalize_ends (c : ascii) (x t z : string) :
  lower z = z ->
  endswith (z ++ ".") (capitalize ((String c x ++ t) ++ " " ++ z) ++ ".") = true.
Proof.
  intro Hz. change (String c x ++ t) with (String c (x ++ t)).
  rewrite capitalize_app, lower_app, Hz, !append_assoc.
  rewrite <- (append_assoc _ (lower " ")). apply endswith_app.
Qed.

Lemma explain_sql_limit (s : string) :
  contains "limit" (lower s) = true ->
  endswith "and limits the results to 50 records." (explain_sql s) = true.
Proof.
  intro H. rewrite explain_sql_phrases. unfold explanation_phrases.
  rewrite H. unfold phrase_if at 9.
  rewrite !app_assoc, app_comm_cons, join_snoc.
  match goal with |- context [join " " (?x :: ?xs)] =>
    destruct (join_cons " " x xs) as (rest & ->) end.
  match goal with |- context [(if ?b then _ else _) ++ rest] =>
    destruct b end.
  - apply (capitalize_ends "T" "his query counts the number of tickets" rest
             "and limits the results to 50 records"). reflexivity.
  - apply (capitalize_ends "T" "his query retrieves ticket details" rest
             "and limits the results to 50 records"). reflexivity.
Qed.

(** X11.  The explanation of a generated statement tells its kind.  For a
    count statement it begins with "This query counts the number of
    tickets"; for any other statement it begins with "This query retrieves
    ticket details" and ends with "and limits the results to 50 records.". *)
Theorem explanation_tells_statement_kind (O : SetOrder) (suggest : Suggester)
  (q raw : string) :
  suggest (build_prompt q) = Return raw ->
  exists s : string,
    generate_sql_from_question O suggest q = Return s /\
    if contains "how many" (lower q) || contains "count" (lower q)
       || contains "count" (lower raw)
    then startswith "This query counts the number of tickets" (explain_sql s)
         = true
    else startswith "This query retrieves ticket details" (explain_sql s) = true
         /\ endswith "and limits the results to 50 records." (explain_sql s)
            = true.
Proof.
  intro H. eexists. split; [exact (generate_returns O _ _ _ H)|].
  rewrite <- (cleaned_count_test raw). fold (count_intent q raw).
  destruct (explain_sql_first
              (assembled (count_intent q raw) (_clean_columns_expression raw)
                         (_build_conditions_from_question O q))) as [-> ->].
  destruct (count_intent q raw) eqn:Ei; unfold assembled.
  - rewrite lower_app. apply contains_app_l. reflexivity.
  - split.
    + apply negb_true_iff. apply (needle_absent not_star); [|reflexivity].
      rewrite all_chars_not_star_lower, !all_chars_app.
      pose proof (where_clause_chars O q) as Hw.
      rewrite (all_chars_impl _ _ _ condition_char_not_star Hw).
      destruct (clean_columns_projection_chars raw) as [Ec|Hp].
      * unfold count_intent in Ei. rewrite Ec in Ei.
        rewrite orb_true_r in Ei. discriminate Ei.
      * rewrite (all_chars_impl _ _ _ projection_char_not_star Hp).
        reflexivity.
    + apply explain_sql_limit. rewrite !lower_app.
      do 3 apply contains_app_r. reflexivity.
Qed.

Lemma explanation_tells_statement_kind_witness :
  exists s : string,
    generate_sql_from_question insertion_order
      (constant_suggester "id, priority") "list low priority tickets"
      = Return s /\
    startswith "This query retrieves ticket details" (explain_sql s) = true /\
    endswith "and limits the results to 50 records." (explain_sql s) = true.
Proof.
  apply (explanation_tells_statement_kind insertion_order
           (constant_suggester "id, priority") "list low priority tickets"
           "id, priority").
  reflexivity.
Defined.

Lemma In_join (sep x : string) (xs : list string) :
  In x xs -> contains x (join sep xs) = true.
Proof.
  unfold join. induction xs as [|y ys IH]; [contradiction|].
  intros [->|H].
  - destruct (join_cons sep x ys) as (r & E). unfold join in E. rewrite E.
    apply contains_app_l, contains_head.
    rewrite <- (append_nil_r x) at 2. apply startswith_app.
  - destruct ys as [|z zs]; [contradiction|].
    change (String.concat sep (y :: z :: zs))
      with (y ++ sep ++ String.concat sep (z :: zs)).
    now apply contains_app_r, contains_app_r, IH.
Qed.

Lemma contains_lower (n s : string) :
  contains n s = true -> contains (lower n) (lower s) = true.
Proof.
  intro H. apply contains_spec in H as (a & b & ->).
  rewrite !lower_app. apply contains_infix, contains_head.
  rewrite <- (append_nil_r (lower n)) at 2. apply startswith_app.
Qed.

(** A lower-case phrase of the list after the first one is in the
    capitalized sentence. *)
Lemma phrase_in_sentence (c : ascii) (x p : string) (tail : list string) :
  In p tail -> lower p = p ->
  contains p (capitalize (join " " (String c x :: tail)) ++ ".") = true.
Proof.
  intros Hin Hp. destruct tail as [|y ys]; [contradiction|].
  unfold join.
  change (String.concat " " (String c x :: y :: ys))
    with (String c (x ++ " " ++ String.concat " " (y :: ys))).
  unfold capitalize. apply contains_app_l.
  apply (contains_app_r _ (String (upper_char c) "")).
  rewrite !lower_app. do 2 apply contains_app_r.
  rewrite <- Hp. apply contains_lower. now apply (In_join " ").
Qed.

(** A condition of the list is in the statement. *)
Lemma condition_in_statement (b : bool) (e c : string) (cs : list string) :
  In c cs -> contains c (assembled b e cs) = true.
Proof.
  intro H. unfold assembled. destruct cs as [|c0 cs0]; [contradiction|].
  do 2 apply contains_app_r. apply contains_app_l, contains_app_r.
  now apply In_join.
Qed.

(** X12.  Every priority, category or status condition of the generated
    statement is told in its explanation: when the builder gives one of
    these eight conditions, the explanation has the phrase that goes with
    it. *)
Theorem explanation_reports_conditions (O : SetOrder) (suggest : Suggester)
  (q raw c p : string) :
  suggest (build_prompt q) = Return raw ->
  In (c, p) reported_conditions ->
  In c (_build_conditions_from_question O q) ->
  exists s : string,
    generate_sql_from_question O suggest q = Return s /\
    contains p (explain_sql s) = true.
Proof.
  intros H Hcp Hc. eexists. split; [exact (generate_returns O _ _ _ H)|].
  apply (condition_in_statement (count_intent q raw)
           (_clean_columns_expression raw)) in Hc.
  apply contains_lower in Hc.
  rewrite explain_sql_phrases. unfold explanation_phrases.
  unfold reported_conditions in Hcp. simpl in Hcp.
  repeat (destruct Hcp as [Hcp|Hcp]; [injection Hcp as <- <-|]);
    [..|contradiction];
    match type of Hc with contains (lower ?n) _ = true =>
      let n' := eval vm_compute in (lower n) in
      change (lower n) with n' in Hc
    end;
    rewrite Hc;
    match goal with |- context [join " " ((if ?b then _ else _) :: _)] =>
      destruct b
    end;
    (apply phrase_in_sentence; [|reflexivity]);
    rewrite !in_app_iff; unfold phrase_if at 1 2 3 4 5 6 7 8 9; simpl; auto 12.
Qed.

Lemma explanation_reports_conditions_witness :
  exists s : string,
    generate_sql_from_question insertion_order
      (constant_suggester "id, status") "open billing tickets" = Return s /\
    contains "that are currently open" (explain_sql s) = true.
Proof.
  apply (explanation_reports_conditions insertion_order
           (constant_suggester "id, status") "open billing tickets"
           "id, status" "status = 'Open'" "that are currently open").
  - reflexivity.
  - simpl. tauto.
  - simpl. tauto.
Defined.

(* ================================================================== *)
(** ** Further properties: the /nl-query route *)
(* ================================================================== *)

Lemma lstrip_all_space (s : string) :
  all_chars is_space s = true -> lstrip s = "".
Proof.
  induction s as [|c s IH]; simpl; [reflexivity|]. intro H.
  apply andb_true_iff in H as [Hc Hs]. rewrite Hc. now apply IH.
Qed.

Lemma strip_empty_iff (s : string) :
  strip s = "" <-> all_chars is_space s = true.
Proof.
  split.
  - intro E. destruct (strip_decomp s) as (a & b & Ha & Hb & Es).
    rewrite E in Es. rewrite Es, !all_chars_app, Ha, Hb. reflexivity.
  - intro H. unfold strip. now rewrite (lstrip_all_space _ H).
Qed.

(** X13.  The route answers "Question cannot be empty" exactly for the
    questions made of white space only (the empty one included), whatever
    the suggester and the database would do. *)
Theorem blank_question_rejected {Cell : Type} (O : SetOrder)
  (suggest : Suggester) (db : Database Cell) (q : string) :
  nl_query O suggest db q =
    inl {| status_code := 400; detail := "Question cannot be empty" |}
  <-> all_chars is_space q = true.
Proof.
  rewrite <- strip_empty_iff. unfold nl_query.
  destruct (String.eqb_spec (strip q) "") as [E|E]; [tauto|].
  split; [|contradiction]. intro H. exfalso.
  destruct (generate_sql_from_question O suggest q) as [s|msg];
    [|discriminate H].
  destruct (negb _); [discriminate H|].
  destruct (db s) as [[cols rs]|msg]; discriminate H.
Qed.

(** X14.  Every error of the route has status 400, and it is one of three:
    the question is blank; the suggester raised, and the detail is "LLM
    SQL error: " with its message; the database raised on the generated
    statement, and the detail is "SQL execution error: " with its
    message. *)
Theorem nl_query_errors {Cell : Type} (O : SetOrder) (suggest : Suggester)
  (db : Database Cell) (q : string) (e : HTTPException) :
  nl_query O suggest db q = inl e ->
  status_code e = 400 /\
  ((all_chars is_space q = true /\ detail e = "Question cannot be empty") \/
   (exists msg, suggest (build_prompt q) = Raise msg /\
                detail e = "LLM SQL error: " ++ msg) \/
   (exists s msg, generate_sql_from_question O suggest q = Return s /\
                  db s = Raise msg /\
                  detail e = "SQL execution error: " ++ msg)).
Proof.
  unfold nl_query.
  destruct (String.eqb_spec (strip q) "") as [E|E].
  - intro H. injection H as <-. split; [reflexivity|]. left.
    split; [now apply strip_empty_iff | reflexivity].
  - destruct (generate_sql_from_question O suggest q) as [s|msg] eqn:G.
    + pose proof G as G'. apply generate_inv in G' as (raw & _ & ->).
      destruct (assembled_select (count_intent q raw)
                  (_clean_columns_expression raw)
                  (_build_conditions_from_question O q)) as (body & Eb).
      rewrite Eb, select_passes_guard. cbn [negb]. rewrite <- Eb.
      destruct (db _) as [[cols rs]|msg] eqn:D; [discriminate|].
      intro H. injection H as <-. split; [reflexivity|].
      right; right. eauto.
    + intro H. injection H as <-. split; [reflexivity|].
      right; left. exists msg. split; [|reflexivity].
      unfold generate_sql_from_question in G. cbv zeta in G.
      destruct (suggest (build_prompt q)); [discriminate G | exact G].
Qed.

Lemma nl_query_errors_witness :
  status_code {| status_code := 400; detail := "LLM SQL error: out of memory" |}
    = 400 /\
  ((all_chars is_space "show open tickets" = true /\
    detail {| status_code := 400; detail := "LLM SQL error: out of memory" |}
      = "Question cannot be empty") \/
   (exists msg, (fun _ : string => @Raise string "out of memory")
                  (build_prompt "show open tickets") = Raise msg /\
                detail {| status_code := 400;
                          detail := "LLM SQL error: out of memory" |}
                  = "LLM SQL error: " ++ msg) \/
   (exists s msg,
      generate_sql_from_question insertion_order
        (fun _ => Raise "out of memory") "show open tickets" = Return s /\
      (fun _ : string => @Return (list string * list (list nat)) ([], []))
        s = Raise msg /\
      detail {| status_code := 400; detail := "LLM SQL error: out of memory" |}
        = "SQL execution error: " ++ msg)).
Proof.
  apply (nl_query_errors insertion_order (fun _ => Raise "out of memory")
           (fun _ => Return ([], [])) "show open tickets").
  reflexivity.
Defined.

Lemma dict_set_keys {V : Type} (d : list (string * V)) (k : string) (v : V)
  (x : string) :
  In x (map fst (dict_set d k v)) -> x = k \/ In x (map fst d).
Proof.
  induction d as [|[k' v'] d IH]; simpl.
  - intros [<-|[]]. now left.
  - destruct (k' =? k); simpl; [tauto|].
    intros [<-|H]; [tauto|]. destruct (IH H); tauto.
Qed.

Lemma dict_set_NoDup {V : Type} (d : list (string * V)) (k : string) (v : V) :
  NoDup (map fst d) -> NoDup (map fst (dict_set d k v)).
Proof.
  induction d as [|[k' v'] d IH]; simpl; intro H.
  - repeat constructor. intros [].
  - destruct (String.eqb_spec k' k) as [E|E]; [exact H|].
    inversion H as [|? ? Hk Hd]; subst. simpl. constructor; [|now apply IH].
    intro Hin. apply dict_set_keys in Hin as [->|Hin]; contradiction.
Qed.

Lemma dict_set_fresh {V : Type} (d : list (string * V)) (k : string) (v : V) :
  ~ In k (map fst d) -> dict_set d k v = (d ++ [(k, v)])%list.
Proof.
  induction d as [|[k' v'] d IH]; simpl; intro H; [reflexivity|].
  destruct (String.eqb_spec k' k) as [E|E]; [tauto|].
  rewrite IH; tauto.
Qed.

Lemma dict_from {V : Type} (ps acc : list (string * V)) :
  NoDup (map fst acc) ->
  NoDup (map fst (fold_left (fun d kv => dict_set d (fst kv) (snd kv)) ps acc))
  /\ (NoDup (map fst (acc ++ ps)) ->
      fold_left (fun d kv => dict_set d (fst kv) (snd kv)) ps acc
      = (acc ++ ps)%list).
Proof.
  revert acc; induction ps as [|[k v] ps IH]; intros acc Hacc; simpl.
  - split; [exact Hacc | now rewrite app_nil_r].
  - destruct (IH (dict_set acc k v) (dict_set_NoDup acc k v Hacc)) as [H1 H2].
    split; [exact H1|]. intro Hn.
    assert (Hk : ~ In k (map fst acc)).
    { rewrite map_app in Hn. simpl in Hn. apply NoDup_remove_2 in Hn.
      intro Hin. apply Hn, in_or_app. now left. }
    rewrite (dict_set_fresh _ _ _ Hk) in *.
    rewrite <- app_assoc in H2. simpl in H2. now apply H2.
Qed.

(** A dict has each key once; made from pairs whose keys are distinct, it is
    those pairs. *)
Lemma dict_NoDup {V : Type} (ps : list (string * V)) :
  NoDup (map fst (dict ps)).
Proof. apply (dict_from ps []). constructor. Qed.

Lemma dict_distinct {V : Type} (ps : list (string * V)) :
  NoDup (map fst ps) -> dict ps = ps.
Proof. apply (dict_from ps []). constructor. Qed.

Lemma combine_keys_NoDup {V : Type} (ks : list string) (vs : list V) :
  NoDup ks -> NoDup (map fst (combine ks vs)).
Proof.
  revert vs; induction ks as [|k ks IH]; intros vs H; [constructor|].
  destruct vs as [|v vs]; [constructor|]. simpl.
  inversion H as [|? ? Hk Hks]; subst. constructor; [|now apply IH].
  intro Hin. apply in_map_iff in Hin as ([k' v'] & <- & Hin).
  apply in_combine_l in Hin. contradiction.
Qed.

(** X15.  When the route answers with a response, the question is not
    blank, the statement of the response is the one the generator returned,
    the explanation is the explanation of that statement, the database was
    asked that statement and answered the columns of the response, and the
    number of records is the number of database rows.  Each row of the
    response is the dict made from the columns zipped with the cells of a
    database row: it has each column name once, with the later cell when a
    name comes twice, and it is the plain pairing of columns and cells when
    the column names are distinct. *)
Theorem nl_query_response {Cell : Type} (O : SetOrder) (suggest : Suggester)
  (db : Database Cell) (q : string) (r : NLQueryResponse Cell) :
  nl_query O suggest db q = inr r ->
  all_chars is_space q = false /\
  generate_sql_from_question O suggest q = Return (sql Cell r) /\
  explanation Cell r = explain_sql (sql Cell r) /\
  exists result_rows : list (list Cell),
    db (sql Cell r) = Return (columns Cell r, result_rows) /\
    rows Cell r
      = map (fun row => dict (combine (columns Cell r) row)) result_rows /\
    Forall (fun row => NoDup (map fst row)) (rows Cell r) /\
    (NoDup (columns Cell r) ->
     rows Cell r = map (combine (columns Cell r)) result_rows) /\
    total_records Cell r = List.length result_rows /\
    List.length (rows Cell r) = total_records Cell r.
Proof.
  unfold nl_query.
  destruct (String.eqb_spec (strip q) "") as [E|E]; [discriminate|].
  destruct (generate_sql_from_question O suggest q) as [s|msg] eqn:G;
    [|discriminate].
  destruct (negb _); [discriminate|].
  destruct (db s) as [[cols rs]|msg] eqn:D; [|discriminate].
  intro H. injection H as <-. cbn.
  split.
  - destruct (all_chars is_space q) eqn:Es; [|reflexivity].
    now apply strip_empty_iff in Es.
  - split; [reflexivity|]. split; [reflexivity|].
    exists rs. rewrite length_map.
    split; [exact D|]. split; [reflexivity|]. split; [|split; [|auto]].
    + apply Forall_forall. intros row Hrow.
      apply in_map_iff in Hrow as (cells & <- & _). apply dict_NoDup.
    + intro Hc. apply map_ext. intro cells.
      apply dict_distinct. now apply combine_keys_NoDup.
Qed.

Lemma nl_query_response_witness :
  all_chars is_space "show open tickets" = false /\
  generate_sql_from_question insertion_order
    (constant_suggester "id, length(text) AS id") "show open tickets" =
    Return "SELECT id, length(text) as id FROM tickets WHERE status = 'Open' LIMIT 50;" /\
  "This query retrieves ticket details that are currently open and limits the results to 50 records."
    = explain_sql "SELECT id, length(text) as id FROM tickets WHERE status = 'Open' LIMIT 50;" /\
  exists result_rows : list (list nat),
    (fun _ : string => Return (["id"; "id"], [[1; 3]; [2; 9]]))
      "SELECT id, length(text) as id FROM tickets WHERE status = 'Open' LIMIT 50;"
      = Return (["id"; "id"], result_rows) /\
    [[("id", 3)]; [("id", 9)]]
      = map (fun row => dict (combine ["id"; "id"] row)) result_rows /\
    Forall (fun row => NoDup (map fst row)) [[("id", 3)]; [("id", 9)]] /\
    (NoDup ["id"; "id"] ->
     [[("id", 3)]; [("id", 9)]] = map (combine ["id"; "id"]) result_rows) /\
    2 = List.length result_rows /\
    List.length [[("id", 3)]; [("id", 9)]] = 2.
Proof.
  apply (nl_query_response insertion_order
           (constant_suggester "id, length(text) AS id")
           (fun _ => Return (["id"; "id"], [[1; 3]; [2; 9]]))
           "show open tickets"
           {| sql := "SELECT id, length(text) as id FROM tickets WHERE status = 'Open' LIMIT 50;";
              explanation := "This query retrieves ticket details that are currently open and limits the results to 50 records.";
              columns := ["id"; "id"];
              rows := [[("id", 3)]; [("id", 9)]];
              total_records := 2 |}).
  reflexivity.
Defined.

(* ================================================================== *)
(** ** Further properties: the lazily loaded model *)
(* ================================================================== *)

(** X16.  After a call of [get_model] that returns, the cache holds the
    returned tokenizer and model, and every later call returns the same
    pair and leaves the cache as it is, whatever loading would give: the
    model is loaded once. *)
Theorem get_model_loads_once {Tokenizer Model : Type}
  (load_tokenizer : outcome Tokenizer) (load_model : outcome Model)
  (cache cache' : ModelCache Tokenizer Model) (t : Tokenizer) (m : Model) :
  get_model load_tokenizer load_model cache = (Return (t, m), cache') ->
  _tokenizer cache' = Some t /\ _model cache' = Some m /\
  forall (load_tokenizer' : outcome Tokenizer) (load_model' : outcome Model),
    get_model load_tokenizer' load_model' cache' = (Return (t, m), cache').
Proof.
  unfold get_model. destruct cache as [[t0|] [m0|]]; cbn;
    try (destruct load_tokenizer as [t1|]; [|discriminate];
         destruct load_model as [m1|]; [|discriminate]);
    intro H; injection H as <- <- <-; cbn; auto.
Qed.

Lemma get_model_loads_once_witness :
  _tokenizer {| _tokenizer := Some 1; _model := Some true |} = Some 1 /\
  _model {| _tokenizer := Some 1; _model := Some true |} = Some true /\
  forall (load_tokenizer' : outcome nat) (load_model' : outcome bool),
    get_model load_tokenizer' load_model'
      {| _tokenizer := Some 1; _model := Some true |}
    = (Return (1, true), {| _tokenizer := Some 1; _model := Some true |}).
Proof.
  apply (get_model_loads_once (Return 1) (Return true)
           {| _tokenizer := Some 0; _model := None |}).
  reflexivity.
Defined.

(* ================================================================== *)
(** ** Further properties: white space around the question *)
(* ================================================================== *)

Lemma rstrip_visible_head (c : ascii) (s : string) :
  is_space c = false -> rstrip (String c s) = String c (rstrip s).
Proof. intro H. simpl. rewrite H. now destruct (rstrip s). Qed.

Lemma rstrip_idem (s : string) : rstrip (rstrip s) = rstrip s.
Proof.
  induction s as [|c s IH]; simpl; [reflexivity|].
  destruct (rstrip s) as [|d r] eqn:E.
  - destruct (is_space c) eqn:Ec; simpl; now rewrite ?Ec.
  - remember (String d r) as x. simpl. rewrite IH. now subst x.
Qed.

Lemma lstrip_head (s : string) :
  lstrip s = "" \/ exists c r, lstrip s = String c r /\ is_space c = false.
Proof.
  induction s as [|c s IH]; simpl; [now left|].
  destruct (is_space c) eqn:E; [exact IH|]. right. now exists c, s.
Qed.

Lemma strip_idem (s : string) : strip (strip s) = strip s.
Proof.
  unfold strip. destruct (lstrip_head s) as [->|(c & r & -> & Hc)];
    [reflexivity|].
  rewrite (rstrip_visible_head _ _ Hc). cbn [lstrip]. rewrite Hc.
  rewrite <- (rstrip_visible_head _ _ Hc). apply rstrip_idem.
Qed.

Lemma startswith_nil_r (n : string) : n <> "" -> startswith n "" = false.
Proof. destruct n; [contradiction | reflexivity]. Qed.

Lemma startswith_cons (a b : ascii) (p s : string) :
  startswith (String a p) (String b s) = (a =? b)%char && startswith p s.
Proof. reflexivity. Qed.

Lemma startswith_spaces_ends (c : ascii) (n b : string) :
  visible (last_char c n) = true -> all_chars is_space b = true ->
  startswith (String c n) b = false.
Proof.
  revert c b. induction n as [|d n IH]; intros c b Hl Hb.
  - simpl in Hl. apply negb_true_iff in Hl. now apply startswith_spaces.
  - destruct b as [|x b]; [reflexivity|]. rewrite startswith_cons.
    simpl in Hb. apply andb_true_iff in Hb as [_ Hb].
    rewrite (IH d b Hl Hb). apply andb_false_r.
Qed.

Lemma startswith_drop_spaces_ends (c : ascii) (n y b : string) :
  visible (last_char c n) = true -> all_chars is_space b = true ->
  startswith (String c n) (y ++ b) = startswith (String c n) y.
Proof.
  intros Hl Hb. revert c n Hl. induction y as [|e y IH]; intros c n Hl.
  - simpl (_ ++ _). now rewrite startswith_spaces_ends.
  - change (String e y ++ b) with (String e (y ++ b)).
    rewrite !startswith_cons. destruct n as [|d n]; [reflexivity|].
    now rewrite (IH d n Hl).
Qed.

Lemma contains_drop_spaces_ends (n s b : string) :
  ends_visible n = true -> all_chars is_space b = true ->
  contains n (s ++ b) = contains n s.
Proof.
  intros Hn Hb. destruct n as [|c n]; [discriminate Hn|].
  simpl in Hn. apply andb_true_iff in Hn as [Hc Hl].
  apply negb_true_iff in Hc.
  induction s as [|d s IH].
  - simpl (_ ++ _). rewrite <- (append_nil_r b) at 1.
    rewrite (contains_skip_spaces_l _ _ _ _ Hb Hc). reflexivity.
  - change (String d s ++ b) with (String d (s ++ b)).
    cbn [contains]. rewrite IH.
    change (String d (s ++ b)) with (String d s ++ b).
    now rewrite startswith_drop_spaces_ends.
Qed.

Lemma contains_lower_strip_ends (n s : string) :
  ends_visible n = true ->
  contains n (lower (strip s)) = contains n (lower s).
Proof.
  intro Hn.
  destruct (strip_decomp s) as (a & b & Ha & Hb & E).
  rewrite E at 2. rewrite !lower_app.
  assert (Hc : exists c r, n = String c r /\ is_space c = false).
  { destruct n as [|c r]; [discriminate Hn|]. exists c, r. split; [reflexivity|].
    simpl in Hn. apply andb_true_iff in Hn as [Hc _]. now apply negb_true_iff. }
  destruct Hc as (c & r & -> & Hc).
  rewrite contains_skip_spaces_l, contains_drop_spaces_ends;
    auto; now rewrite all_space_lower.
Qed.

Lemma space_not_letter (c : ascii) :
  is_space c = true -> is_ascii_letter c = false.
Proof. each_char c; simpl; intro H; try reflexivity; discriminate H. Qed.

Lemma findall_skip_spaces_l (a s : string) :
  all_chars is_space a = true ->
  findall_from "" (a ++ s) = findall_from "" s.
Proof.
  intro Ha. induction a as [|c a IH]; [reflexivity|].
  simpl in Ha. apply andb_true_iff in Ha as [Hc Ha].
  simpl. rewrite (space_not_letter _ Hc). now apply IH.
Qed.

Lemma findall_spaces (run b : string) :
  all_chars is_space b = true -> findall_from run b = flush run.
Proof.
  intro Hb. revert run. induction b as [|c b IH]; intro run; [reflexivity|].
  simpl in Hb. apply andb_true_iff in Hb as [Hc Hb].
  simpl. rewrite (space_not_letter _ Hc), (IH Hb). apply app_nil_r.
Qed.

Lemma findall_drop_spaces_r (run s b : string) :
  all_chars is_space b = true ->
  findall_from run (s ++ b) = findall_from run s.
Proof.
  intro Hb. revert run. induction s as [|c s IH]; intro run.
  - now apply findall_spaces.
  - simpl. destruct (is_ascii_letter c); now rewrite IH.
Qed.

Lemma keywords_strip (O : SetOrder) (question : string) :
  _extract_text_keywords O (strip question) = _extract_text_keywords O question.
Proof.
  unfold _extract_text_keywords, findall_letters3. cbv zeta.
  destruct (strip_decomp question) as (a & b & Ha & Hb & E).
  rewrite E at 2.
  now rewrite (findall_skip_spaces_l _ _ Ha), (findall_drop_spaces_r _ _ _ Hb).
Qed.

Lemma conditions_strip (O : SetOrder) (question : string) :
  _build_conditions_from_question O (strip question) =
  _build_conditions_from_question O question.
Proof.
  rewrite !build_conditions_parts.
  unfold priority_part, technical_part, billing_part, general_part,
    open_part, closed_part, date_part, free_text_part.
  rewrite keywords_strip.
  now rewrite !contains_lower_strip_ends by reflexivity.
Qed.

(** X17.  White space before and after the question changes nothing: the
    prompt, the conditions, the generated statement and the answer of the
    route are those of the stripped question. *)
Theorem surrounding_space_ignored (O : SetOrder) (suggest : Suggester)
  (q : string) :
  build_prompt (strip q) = build_prompt q /\
  _build_conditions_from_question O (strip q) =
    _build_conditions_from_question O q /\
  generate_sql_from_question O suggest (strip q) =
    generate_sql_from_question O suggest q /\
  forall (Cell : Type) (db : Database Cell),
    nl_query O suggest db (strip q) = nl_query O suggest db q.
Proof.
  assert (Hp : build_prompt (strip q) = build_prompt q)
    by (unfold build_prompt; now rewrite strip_idem).
  assert (Hg : generate_sql_from_question O suggest (strip q) =
               generate_sql_from_question O suggest q).
  { unfold generate_sql_from_question. cbv zeta.
    rewrite Hp, conditions_strip.
    now rewrite !contains_lower_strip_ends by reflexivity. }
  split; [exact Hp|]. split; [apply conditions_strip|]. split; [exact Hg|].
  intros Cell db. unfold nl_query. now rewrite strip_idem, Hg.
Qed.
